(** * Fare and availability re-check of auto-southwest-check-in

    A shallow embedding of [lib/utils.py], [lib/fare_checker.py] and
    [lib/passenger_checker.py].

    - JSON values decoded by [response.json()] are the inductive [JSON];
      a Python dict is an association list in insertion order, read with
      first-match lookup (keys of a decoded object are distinct).
      Numbers are integers; floating-point numbers are outside the model.
    - Python exceptions are the constructors of [exn]; a computation that
      may raise returns a [result].
    - The remote API, [time.sleep] and the notification handler are
      effects: a computation of type [M A] threads a [World] holding the
      script of HTTP responses still to come and the trace of what the
      program has done so far.
    - [logger.debug] calls are not modelled. *)

From Stdlib Require Import ZArith String List Bool Ascii DecimalString Lia.
Import ListNotations.
Open Scope string_scope.
Open Scope Z_scope.
Set Warnings "-register-all".

(** ** JSON values and the Python operations used on them *)

Inductive JSON : Type :=
| JNull
| JBool (b : bool)
| JNum (n : Z)
| JStr (s : string)
| JList (l : list JSON)
| JDict (d : list (string * JSON)).

Inductive exn : Type :=
| KeyError (arg : string)
| IndexError
| TypeError
| AttributeError
| UnboundLocalError
| RequestError (msg : string)
| ConnectionError.

Inductive result (A : Type) : Type :=
| Ok (a : A)
| Raise (e : exn).
Arguments Ok {A} a.
Arguments Raise {A} e.

Definition rbind {A B} (r : result A) (k : A -> result B) : result B :=
  match r with
  | Ok a => k a
  | Raise e => Raise e
  end.

Declare Scope result_scope.
Delimit Scope result_scope with res.
Notation "x <- c ;; k" := (rbind c (fun x => k))
  (at level 61, c at next level, right associativity) : result_scope.

(** [d.get(k)] on the association list of a dict. *)
Fixpoint lookup (k : string) (d : list (string * JSON)) : option JSON :=
  match d with
  | [] => None
  | (k', v) :: d' => if String.eqb k k' then Some v else lookup k d'
  end.

(** [d[k] = v] on a dict: an existing key keeps its position. *)
Fixpoint setitem (k : string) (v : JSON) (d : list (string * JSON))
  : list (string * JSON) :=
  match d with
  | [] => [(k, v)]
  | (k', v') :: d' =>
      if String.eqb k k' then (k, v) :: d' else (k', v') :: setitem k v d'
  end.

Definition dict_keys (x : JSON) : list string :=
  match x with
  | JDict d => map fst d
  | _ => []
  end.

(** [x[k]] for a string key [k]. *)
Definition subscript (x : JSON) (k : string) : result JSON :=
  match x with
  | JDict d =>
      match lookup k d with
      | Some v => Ok v
      | None => Raise (KeyError k)
      end
  | _ => Raise TypeError
  end.

Definition char_strings (s : string) : list JSON :=
  map (fun c => JStr (String c EmptyString)) (list_ascii_of_string s).

(** [x[i]] for a non-negative integer index [i]. The keys of a decoded
    object are strings, so an integer is never among them. *)
Definition subscript_int (x : JSON) (i : nat) : result JSON :=
  match x with
  | JList l =>
      match nth_error l i with
      | Some v => Ok v
      | None => Raise IndexError
      end
  | JStr s =>
      match nth_error (char_strings s) i with
      | Some v => Ok v
      | None => Raise IndexError
      end
  | JDict _ => Raise (KeyError (NilZero.string_of_int (Z.to_int (Z.of_nat i))))
  | _ => Raise TypeError
  end.

(** The elements a [for] loop over [x] visits. *)
Definition py_iter (x : JSON) : result (list JSON) :=
  match x with
  | JList l => Ok l
  | JDict d => Ok (map (fun kv => JStr (fst kv)) d)
  | JStr s => Ok (char_strings s)
  | _ => Raise TypeError
  end.

(** [x == y]. [True == 1] and [False == 0] hold in Python; two dicts are
    equal when they bind the same keys to equal values, in any order. *)
Fixpoint py_eq (x y : JSON) {struct x} : bool :=
  match x, y with
  | JNull, JNull => true
  | JBool a, JBool b => Bool.eqb a b
  | JBool a, JNum n => Z.eqb (if a then 1 else 0) n
  | JNum n, JBool a => Z.eqb n (if a then 1 else 0)
  | JNum a, JNum b => Z.eqb a b
  | JStr a, JStr b => String.eqb a b
  | JList l, JList m =>
      (fix go (l m : list JSON) {struct l} : bool :=
         match l, m with
         | [], [] => true
         | a :: l', b :: m' => py_eq a b && go l' m'
         | _, _ => false
         end) l m
  | JDict d, JDict e =>
      Nat.eqb (length d) (length e) &&
      (fix go (d : list (string * JSON)) {struct d} : bool :=
         match d with
         | [] => true
         | (k, v) :: d' =>
             match lookup k e with
             | Some w => py_eq v w
             | None => false
             end && go d'
         end) d
  | _, _ => false
  end.

(** [x == s] where [s] is a Python str. *)
Definition py_eq_str (x : JSON) (s : string) : bool := py_eq x (JStr s).

(** Truth value of [x] in a condition. *)
Definition py_truthy (x : JSON) : bool :=
  match x with
  | JNull => false
  | JBool b => b
  | JNum n => negb (Z.eqb n 0)
  | JStr s => negb (String.eqb s "")
  | JList l => negb (Nat.eqb (length l) 0)
  | JDict d => negb (Nat.eqb (length d) 0)
  end.

(** [needle in hay] for two strs. *)
Fixpoint contains (needle hay : string) : bool :=
  match hay with
  | EmptyString => prefix needle EmptyString
  | String _ hay' => prefix needle hay || contains needle hay'
  end.

(** [s in x] for a str [s]. *)
Definition py_in (s : string) (x : JSON) : result bool :=
  match x with
  | JStr h => Ok (contains s h)
  | JList l => Ok (existsb (fun e => py_eq (JStr s) e) l)
  | JDict d => Ok (existsb (fun kv => String.eqb s (fst kv)) d)
  | _ => Raise TypeError
  end.

(** [s[1:]] on a str. *)
Definition tail (s : string) : string :=
  match s with
  | EmptyString => EmptyString
  | String _ s' => s'
  end.

(** [x[1:]]. Slicing a dict raises (a [TypeError] before Python 3.12). *)
Definition slice_from_1 (x : JSON) : result JSON :=
  match x with
  | JStr s => Ok (JStr (tail s))
  | JList l => Ok (JList (tl l))
  | _ => Raise TypeError
  end.

(** [s + x] for a str [s]. *)
Definition str_concat (s : string) (x : JSON) : result string :=
  match x with
  | JStr t => Ok (s ++ t)
  | _ => Raise TypeError
  end.

(** [x.get(k, default)]: only a dict has the method. *)
Definition py_get (x : JSON) (k : string) (default : JSON) : result JSON :=
  match x with
  | JDict d =>
      match lookup k d with
      | Some v => Ok v
      | None => Ok default
      end
  | _ => Raise AttributeError
  end.

(** [str(n)] for an int. *)
Definition str_of_int (n : Z) : string := NilZero.string_of_int (Z.to_int n).

(** [s.split(" ")[0]]: the part of [s] before its first space. *)
Fixpoint before_space (s : string) : string :=
  match s with
  | EmptyString => EmptyString
  | String c s' =>
      if Ascii.eqb c " "%char then EmptyString else String c (before_space s')
  end.

(** ** Flights, the transport and the world *)

(** Modelled from the spec: the class [Flight] of [lib/flight.py], which is
    not part of the sources read here. Section 3 of the specification
    lists its fields; [departure_time] holds the rendering [str] gives of
    the raw departure timestamp. *)
Record Flight : Type := {
  confirmation_number : string;
  local_departure_time : string;
  departure_airport : string;
  destination_airport : string;
  departure_time : string
}.

Record HttpResponse : Type := {
  status_code : Z;
  reason : string;
  json : JSON
}.

Inductive Event : Type :=
| HttpCall (post : bool) (url : string) (headers info : JSON)
| Sleep (milliseconds : Z)
| LowerFare (flight : Flight) (price_info : string)
| FlightUnavailable (flight : Flight).

(** [responses]: what the server answers to the HTTP calls still to be
    made, in order; when the script is exhausted the [requests] library
    raises. [events]: what has happened so far, oldest first. *)
Record World : Type := {
  responses : list HttpResponse;
  events : list Event
}.

Definition M (A : Type) : Type := World -> result A * World.

Definition ret {A} (a : A) : M A := fun w => (Ok a, w).
Definition raise {A} (e : exn) : M A := fun w => (Raise e, w).
Definition bind {A B} (m : M A) (k : A -> M B) : M B :=
  fun w =>
    match m w with
    | (Ok a, w') => k a w'
    | (Raise e, w') => (Raise e, w')
    end.
Definition lift {A} (r : result A) : M A := fun w => (r, w).

Definition emit (e : Event) : M unit :=
  fun w => (Ok tt, {| responses := responses w; events := events w ++ [e] |}).

Declare Scope io_scope.
Delimit Scope io_scope with io.
Notation "x <- c ;; k" := (bind c (fun x => k))
  (at level 61, c at next level, right associativity) : io_scope.
Notation "' pat <- c ;; k" := (bind c (fun x => match x with pat => k end))
  (at level 61, pat pattern, c at next level, right associativity) : io_scope.
Notation "c ;;; k" := (bind c (fun _ => k))
  (at level 61, right associativity) : io_scope.

(** [requests.post(url, headers=headers, json=info)] and
    [requests.get(url, headers=headers, params=info)]. *)
Definition http (post : bool) (url : string) (headers info : JSON)
  : M HttpResponse :=
  fun w =>
    match responses w with
    | [] =>
        (Raise ConnectionError,
         {| responses := [];
            events := events w ++ [HttpCall post url headers info] |})
    | r :: rest =>
        (Ok r,
         {| responses := rest;
            events := events w ++ [HttpCall post url headers info] |})
    end.

(** [time.sleep(0.5)]. *)
Definition sleep_half_second : M unit := emit (Sleep 500).

(** ** lib/utils.py *)

Definition BASE_URL : string := "https://mobile.southwest.com/api/".

(** The [while attempts <= max_attempts] loop of [make_request], by
    recursion on the number of attempts still allowed; [response] is the
    local variable of that name, unbound before the first attempt. *)
Fixpoint attempt_loop (post : bool) (url : string) (headers info : JSON)
  (remaining : nat) (response : option HttpResponse) : M JSON :=
  match remaining with
  | O =>
      match response with
      | None => raise UnboundLocalError
      | Some r =>
          raise (RequestError (reason r ++ " " ++ str_of_int (status_code r)))
      end
  | S remaining' =>
      (r <- http post url headers info ;;
       if status_code r =? 200 then ret (json r)
       else sleep_half_second ;;;
            attempt_loop post url headers info remaining' (Some r))%io
  end.

Definition make_request (method site : string) (headers info : JSON)
  (max_attempts : Z) : M JSON :=
  let url := BASE_URL ++ site in
  attempt_loop (String.eqb method "POST") url headers info
    (Z.to_nat max_attempts) None.

(** ** The two checkers *)

(** Modelled from the spec: the object [flight_retriever] the checkers are
    built from ([lib/flight_retriever.py] is not part of the sources read
    here): the traveller's name and the request headers of its check-in
    scheduler. Its notification handler is the pair of events [LowerFare]
    and [FlightUnavailable]. *)
Record FlightRetriever : Type := {
  first_name : string;
  last_name : string;
  headers : JSON
}.

Definition BOOKING_URL : string := "mobile-air-booking/".
Definition SHOPPING_URL : string :=
  "mobile-air-shopping/v1/mobile-air-shopping/page/flights/products".
Definition AIRPORTS_FILE_PATH : string := "utils/airport_stations.json".

Section Checkers.

(** The constant imported from [lib/checkin_scheduler.py]. *)
Variable VIEW_RESERVATION_URL : string.

(** [str(x)] for a list or a dict, which is Python's [repr]; its text is
    never inspected here. *)
Variable container_repr : JSON -> string.

(** The decoded content of the file at [AIRPORTS_FILE_PATH]. *)
Variable airports_file : JSON.

Variable flight_retriever : FlightRetriever.

(** [str(x)], which is also what an f-string field renders. *)
Definition py_str (x : JSON) : string :=
  match x with
  | JNull => "None"
  | JBool true => "True"
  | JBool false => "False"
  | JNum n => str_of_int n
  | JStr s => s
  | _ => container_repr x
  end.

Definition lower_fare (flight : Flight) (price_info : string) : M unit :=
  emit (LowerFare flight price_info).

Definition flight_unavailable (flight : Flight) : M unit :=
  emit (FlightUnavailable flight).

(** *** lib/utils.py, [get_airport_code] (the second definition, which
    replaces the first) *)

Fixpoint airport_scan (airports : list JSON) (city : string) : result JSON :=
  match airports with
  | [] => Ok JNull
  | airport :: rest =>
      (name <- subscript airport "stationName" ;;
       if py_eq_str name city then subscript airport "id"
       else airport_scan rest city)%res
  end.

Definition get_airport_code (city : string) : result JSON :=
  (stations <- subscript airports_file "airStations" ;;
   airports <- py_iter stations ;;
   airport_scan airports city)%res.

(** *** lib/fare_checker.py *)

(** [FareChecker._get_matching_fare]: the loop over [fares], then the
    [raise] after it. *)
Fixpoint fare_scan (fares : list JSON) (fare_type : JSON) : result JSON :=
  match fares with
  | [] => Raise (KeyError ("No fare type found matching " ++ py_str fare_type))
  | fare :: rest =>
      (meta <- subscript fare "_meta" ;;
       id <- subscript meta "fareProductId" ;;
       if py_eq id fare_type then subscript fare "priceDifference"
       else fare_scan rest fare_type)%res
  end.

Definition _get_matching_fare (fares fare_type : JSON) : result JSON :=
  (fs <- py_iter fares ;; fare_scan fs fare_type)%res.

(** The dict appended to [search_terms] for the bound at position [idx]. *)
Definition search_term (bound_references : JSON) (flight : Flight)
  (idx : nat) (bound : JSON) : result JSON :=
  (reference <- subscript_int bound_references idx ;;
   boundReference <- subscript reference "boundReference" ;;
   date <- subscript bound "originalDate" ;;
   destination <- subscript bound "toAirportCode" ;;
   origin <- subscript bound "fromAirportCode" ;;
   timeDeparts <- subscript bound "timeDeparts" ;;
   Ok (JDict [("boundReference", boundReference);
              ("date", date);
              ("destination-airport", destination);
              ("origin-airport", origin);
              ("isChangeBound",
               JBool (py_eq_str timeDeparts (local_departure_time flight)))]))%res.

(** The [for idx, bound in enumerate(...)] loop, from position [idx] on. *)
Fixpoint search_terms_from (bound_references : JSON) (flight : Flight)
  (idx : nat) (bounds : list JSON) : result (list JSON) :=
  match bounds with
  | [] => Ok []
  | bound :: rest =>
      (term <- search_term bound_references flight idx bound ;;
       terms <- search_terms_from bound_references flight (S idx) rest ;;
       Ok (term :: terms))%res
  end.

(** [FareChecker._get_search_query]; [combine] is [zip]. *)
Definition _get_search_query (flight_page : JSON) (flight : Flight)
  : result JSON :=
  (links <- subscript flight_page "_links" ;;
   changeShopping <- subscript links "changeShopping" ;;
   bound_references <- subscript changeShopping "body" ;;
   selections <- subscript flight_page "boundSelections" ;;
   bounds <- py_iter selections ;;
   search_terms <- search_terms_from bound_references flight 0 bounds ;;
   Ok (JDict (combine ["outbound"; "inbound"] search_terms)))%res.

(** Lines 94-95 of [_get_change_flight_page]: the fix for the extra slash
    in the href of the change link; [info] is updated in place. *)
Definition fix_href (info : JSON) : result JSON :=
  (href <- subscript info "href" ;;
   found <- py_in "/v1/" href ;;
   if (found : bool) then
     href <- subscript info "href" ;;
     stripped <- slice_from_1 href ;;
     match info with
     | JDict d => Ok (JDict (setitem "href" stripped d))
     | _ => Raise TypeError
     end
   else Ok info)%res.

(** [FareChecker._get_change_flight_page]. *)
Definition _get_change_flight_page (flight : Flight) : M (JSON * JSON) :=
  (let info := JDict [("first-name", JStr (first_name flight_retriever));
                      ("last-name", JStr (last_name flight_retriever))] in
   let site := VIEW_RESERVATION_URL ++ confirmation_number flight in
   response <- make_request "GET" site (headers flight_retriever) info 7 ;;
   fare_type_bounds <-
     lift (page <- subscript response "viewReservationViewPage" ;;
           subscript page "bounds")%res ;;
   info <-
     lift (page <- subscript response "viewReservationViewPage" ;;
           links <- subscript page "_links" ;;
           subscript links "change")%res ;;
   info <- lift (fix_href info) ;;
   site <- lift (href <- subscript info "href" ;;
                 str_concat BOOKING_URL href)%res ;;
   query <- lift (subscript info "query") ;;
   response <- make_request "GET" site (headers flight_retriever) query 7 ;;
   page <- lift (subscript response "changeFlightPage") ;;
   ret (page, fare_type_bounds))%io.

(** [FareChecker._get_matching_flights]. *)
Definition _get_matching_flights (flight : Flight) : M (JSON * JSON) :=
  ('(change_flight_page, fare_type_bounds) <- _get_change_flight_page flight ;;
   query <- lift (_get_search_query change_flight_page flight) ;;
   info <- lift (links <- subscript change_flight_page "_links" ;;
                 subscript links "changeShopping")%res ;;
   site <- lift (href <- subscript info "href" ;;
                 str_concat BOOKING_URL href)%res ;;
   isChangeBound <- lift (outbound <- subscript query "outbound" ;;
                          subscript outbound "isChangeBound")%res ;;
   let bound_page :=
     if py_truthy isChangeBound then "outboundPage" else "inboundPage" in
   let bound := if String.eqb bound_page "outboundPage" then 0%nat else 1%nat in
   fare_type <-
     lift (leg <- subscript_int fare_type_bounds bound ;;
           details <- subscript leg "fareProductDetails" ;;
           subscript details "fareProductId")%res ;;
   response <- make_request "POST" site (headers flight_retriever) query 7 ;;
   cards <-
     lift (page <- subscript response "changeShoppingPage" ;;
           flights <- subscript page "flights" ;;
           bound_flights <- subscript flights bound_page ;;
           subscript bound_flights "cards")%res ;;
   ret (cards, fare_type))%io.

(** The loop of [_get_flight_price] over the cards; falling out of it
    returns [None]. *)
Fixpoint price_scan (flights : list JSON) (fare_type : JSON)
  (flight : Flight) : result JSON :=
  match flights with
  | [] => Ok JNull
  | new_flight :: rest =>
      (departureTime <- subscript new_flight "departureTime" ;;
       if py_eq_str departureTime (local_departure_time flight) then
         fares <- subscript new_flight "fares" ;;
         _get_matching_fare fares fare_type
       else price_scan rest fare_type flight)%res
  end.

(** [FareChecker._get_flight_price]. *)
Definition _get_flight_price (flight : Flight) : M JSON :=
  ('(flights, fare_type) <- _get_matching_flights flight ;;
   lift (cards <- py_iter flights ;; price_scan cards fare_type flight)%res)%io.

(** [FareChecker.check_flight_price]. *)
Definition check_flight_price (flight : Flight) : M unit :=
  (flight_price <- _get_flight_price flight ;;
   sign <- lift (py_get flight_price "sign" (JStr "")) ;;
   amount <- lift (subscript flight_price "amount") ;;
   currencyCode <- lift (subscript flight_price "currencyCode") ;;
   let price_info :=
     py_str sign ++ py_str amount ++ " " ++ py_str currencyCode in
   if py_eq_str sign "-" then lower_fare flight price_info else ret tt)%io.

(** *** lib/passenger_checker.py *)

(** [PassengerChecker._find_matching_flight]; falling out of the loop
    returns [None]. *)
Fixpoint _find_matching_flight_scan (flight : Flight)
  (flights_available : list JSON) : result JSON :=
  match flights_available with
  | [] => Ok JNull
  | available_flight :: rest =>
      (departureTime <- subscript available_flight "departureTime" ;;
       if py_eq_str departureTime (local_departure_time flight)
       then Ok available_flight
       else _find_matching_flight_scan flight rest)%res
  end.

Definition _find_matching_flight (flight : Flight) (flights_available : JSON)
  : result JSON :=
  (cards <- py_iter flights_available ;;
   _find_matching_flight_scan flight cards)%res.

(** [PassengerChecker._search_for_new_booking_on_same_flight]. *)
Definition _search_for_new_booking_on_same_flight (flight : Flight) : M JSON :=
  (let info := [("origination-airport", JNull);
                ("destination-airport", JNull);
                ("departure-date", JNull);
                ("number-adult-passengers", JStr "8");
                ("currency", JStr "USD")] in
   origin <- lift (get_airport_code (departure_airport flight)) ;;
   let info := setitem "origination-airport" origin info in
   destination <- lift (get_airport_code (destination_airport flight)) ;;
   let info := setitem "destination-airport" destination info in
   let departure_date := before_space (departure_time flight) in
   let info := setitem "departure-date" (JStr departure_date) info in
   let site := SHOPPING_URL in
   response <-
     make_request "GET" site (headers flight_retriever) (JDict info) 7 ;;
   lift (page <- subscript response "flightShoppingPage" ;;
         outbound <- subscript page "outboundPage" ;;
         subscript outbound "cards")%res)%io.

(** [PassengerChecker.check_passenger_availability]. *)
Definition check_passenger_availability (flight : Flight) : M unit :=
  (flights_available <- _search_for_new_booking_on_same_flight flight ;;
   matching_flight <- lift (_find_matching_flight flight flights_available) ;;
   price <- lift (subscript matching_flight "startingFromPrice") ;;
   match price with
   | JNull => flight_unavailable flight
   | _ => ret tt
   end)%io.

(** ** Vocabulary of the statements *)

(** The world after the program has done [evs] on top of [w]. *)
Definition add_events (w : World) (evs : list Event) : World :=
  {| responses := responses w; events := events w ++ evs |}.

(** One failed attempt: the HTTP call, then the half-second pause. *)
Definition failed_attempt (post : bool) (url : string) (headers info : JSON)
  : list Event :=
  [HttpCall post url headers info; Sleep 500].

Definition failed_attempts (post : bool) (url : string) (headers info : JSON)
  (n : nat) : list Event :=
  concat (repeat (failed_attempt post url headers info) n).

Definition not_200 (r : HttpResponse) : Prop := status_code r <> 200.

(** The card departs at a time other than the booked flight's. *)
Definition other_time (flight : Flight) (card : JSON) : bool :=
  match subscript card "departureTime" with
  | Ok t => negb (py_eq_str t (local_departure_time flight))
  | Raise _ => false
  end.

(** The sign a fare delta renders with: nothing when the key is absent. *)
Definition rendered_sign (sign : option string) : string :=
  match sign with
  | Some s => s
  | None => ""
  end.

(** [fare["_meta"]["fareProductId"]]. *)
Definition fare_product_id (fare : JSON) : result JSON :=
  (meta <- subscript fare "_meta" ;; subscript meta "fareProductId")%res.

(** The fare is for the fare product [fare_type]. *)
Definition fare_matches (fare_type fare : JSON) : bool :=
  match fare_product_id fare with
  | Ok id => py_eq id fare_type
  | Raise _ => false
  end.

(** A fare as the shopping endpoint lists it: a fare product id under
    [_meta] and a price difference. *)
Definition well_formed_fare (fare : JSON) : bool :=
  match fare_product_id fare, subscript fare "priceDifference" with
  | Ok _, Ok _ => true
  | _, _ => false
  end.

Definition has_key (k : string) (x : JSON) : bool :=
  match subscript x k with
  | Ok _ => true
  | Raise _ => false
  end.

(** [flight_page["_links"]["changeShopping"]["body"]]. *)
Definition page_body (flight_page : JSON) : result JSON :=
  (links <- subscript flight_page "_links" ;;
   changeShopping <- subscript links "changeShopping" ;;
   subscript changeShopping "body")%res.

(** The bound at position [idx] has its four fields, and the body of the
    change-shopping link has a bound reference at that position. *)
Definition bound_ok (body : JSON) (idx : nat) (bound : JSON) : bool :=
  match subscript_int body idx with
  | Ok reference => has_key "boundReference" reference
  | Raise _ => false
  end
  && has_key "originalDate" bound
  && has_key "toAirportCode" bound
  && has_key "fromAirportCode" bound
  && has_key "timeDeparts" bound.

Fixpoint bounds_ok (body : JSON) (idx : nat) (bounds : list JSON) : bool :=
  match bounds with
  | [] => true
  | bound :: rest => bound_ok body idx bound && bounds_ok body (S idx) rest
  end.

(** [fare_type_bounds[bound]["fareProductDetails"]["fareProductId"]]. *)
Definition fare_type_of_leg (fare_type_bounds : JSON) (bound : nat)
  : result JSON :=
  (leg <- subscript_int fare_type_bounds bound ;;
   details <- subscript leg "fareProductDetails" ;;
   subscript details "fareProductId")%res.

(** [response["changeShoppingPage"]["flights"][bound_page]["cards"]]. *)
Definition cards_of_page (response : JSON) (bound_page : string)
  : result JSON :=
  (page <- subscript response "changeShoppingPage" ;;
   flights <- subscript page "flights" ;;
   bound_flights <- subscript flights bound_page ;;
   subscript bound_flights "cards")%res.

(** [response["viewReservationViewPage"]["bounds"]]. *)
Definition reservation_bounds (response : JSON) : result JSON :=
  (page <- subscript response "viewReservationViewPage" ;;
   subscript page "bounds")%res.

(** [response["viewReservationViewPage"]["_links"]["change"]]. *)
Definition reservation_change_link (response : JSON) : result JSON :=
  (page <- subscript response "viewReservationViewPage" ;;
   links <- subscript page "_links" ;;
   subscript links "change")%res.

(** The parameters of the reservation lookup. *)
Definition traveller_info : JSON :=
  JDict [("first-name", JStr (first_name flight_retriever));
         ("last-name", JStr (last_name flight_retriever))].

(** ** Example data, after the test suite and section 8 of the
    specification *)

Definition example_view_reservation_url : string :=
  "mobile-air-booking/v1/mobile-air-booking/page/view-reservation/".

Definition example_repr (x : JSON) : string := "<container>".

Definition example_retriever : FlightRetriever :=
  {| first_name := "Ann";
     last_name := "Lee";
     headers := JDict [("X-Channel-ID", JStr "MWEB")] |}.

Definition example_flight (local_time : string) : Flight :=
  {| confirmation_number := "ABC123";
     local_departure_time := local_time;
     departure_airport := "Miami";
     destination_airport := "Los Angeles";
     departure_time := "2021-12-06 12:00:00" |}.

Definition example_airports : JSON :=
  JDict [("airStations",
          JList [JDict [("id", JStr "LAX"); ("stationName", JStr "Los Angeles")];
                 JDict [("id", JStr "MIA"); ("stationName", JStr "Miami")]])].

Definition ok_response (body : JSON) : HttpResponse :=
  {| status_code := 200; reason := "OK"; json := body |}.

Definition busy_response : HttpResponse :=
  {| status_code := 503; reason := "Service Unavailable"; json := JNull |}.

Definition missing_response : HttpResponse :=
  {| status_code := 404; reason := "Not Found"; json := JNull |}.

Definition bound_one : JSON :=
  JDict [("originalDate", JStr "1/1"); ("toAirportCode", JStr "LAX");
         ("fromAirportCode", JStr "MIA"); ("timeDeparts", JStr "12:00")].

Definition bound_two : JSON :=
  JDict [("originalDate", JStr "1/2"); ("toAirportCode", JStr "MIA");
         ("fromAirportCode", JStr "LAX"); ("timeDeparts", JStr "1:00")].

Definition bound_three : JSON :=
  JDict [("originalDate", JStr "1/3"); ("toAirportCode", JStr "LAX");
         ("fromAirportCode", JStr "MIA"); ("timeDeparts", JStr "2:00")].

Definition example_body : JSON :=
  JList [JDict [("boundReference", JStr "bound_1")];
         JDict [("boundReference", JStr "bound_2")];
         JDict [("boundReference", JStr "bound_3")]].

Definition example_page (bounds : list JSON) : JSON :=
  JDict [("boundSelections", JList bounds);
         ("_links",
          JDict [("changeShopping",
                  JDict [("href", JStr "v1/mobile-air-booking/page/flights/change/shopping");
                         ("body", example_body)])])].

Definition example_change_query : JSON := JDict [("action", JStr "CHANGE")].

Definition reservation_response (href : string) : JSON :=
  JDict [("viewReservationViewPage",
          JDict [("bounds",
                  JList [JDict [("fareProductDetails",
                                 JDict [("fareProductId", JStr "WGA")])];
                         JDict [("fareProductDetails",
                                 JDict [("fareProductId", JStr "ANY")])]]);
                 ("_links",
                  JDict [("change",
                          JDict [("href", JStr href);
                                 ("query", example_change_query)])])])].

Definition slashed_href : string :=
  "/v1/mobile-air-booking/page/flights/change/current/ABC123".

Definition shopping_response (outbound_cards inbound_cards : JSON) : JSON :=
  JDict [("changeShoppingPage",
          JDict [("flights",
                  JDict [("outboundPage", JDict [("cards", outbound_cards)]);
                         ("inboundPage", JDict [("cards", inbound_cards)])])])].

(** The three answers of a price check on a round trip. *)
Definition price_world (outbound_cards inbound_cards : JSON) : World :=
  {| responses :=
       [ok_response (reservation_response slashed_href);
        ok_response
          (JDict [("changeFlightPage", example_page [bound_one; bound_two])]);
        ok_response (shopping_response outbound_cards inbound_cards)];
     events := [] |}.

Definition fare_delta (sign : string) : JSON :=
  JDict [("sign", JStr sign); ("amount", JStr "10");
         ("currencyCode", JStr "USD")].

Definition fare_card (time fare_type sign : string) : JSON :=
  JDict [("departureTime", JStr time);
         ("fares",
          JList [JDict [("_meta", JDict [("fareProductId", JStr fare_type)]);
                        ("priceDifference", fare_delta sign)]])].

Definition unmatched_cards : JSON :=
  JList [JDict [("departureTime", JStr "10:30")];
         JDict [("departureTime", JStr "11:30")]].

Definition availability_world (cards : JSON) : World :=
  {| responses :=
       [ok_response
          (JDict [("flightShoppingPage",
                   JDict [("outboundPage", JDict [("cards", cards)])])])];
     events := [] |}.

(** ** Vocabulary of the further statements *)

(** Events of the transport: HTTP calls and pauses. *)
Definition is_transport (e : Event) : bool :=
  match e with
  | HttpCall _ _ _ _ | Sleep _ => true
  | _ => false
  end.

Definition is_http_call (e : Event) : bool :=
  match e with
  | HttpCall _ _ _ _ => true
  | _ => false
  end.

Definition http_calls (evs : list Event) : nat :=
  length (filter is_http_call evs).

(** Whatever the world, [m] adds to the trace only events of the
    transport, among them at most [n] HTTP calls. *)
Definition transport_within {A} (n : nat) (m : M A) : Prop :=
  forall w,
    exists evs,
      events (snd (m w)) = (events w ++ evs)%list /\
      forallb is_transport evs = true /\
      (http_calls evs <= n)%nat.

(** The card departs at the booked flight's local departure time. *)
Definition card_departs_at (flight : Flight) (card : JSON) : bool :=
  match subscript card "departureTime" with
  | Ok t => py_eq_str t (local_departure_time flight)
  | Raise _ => false
  end.

(** The station carries the name [city]. *)
Definition station_named (city : string) (station : JSON) : bool :=
  match subscript station "stationName" with
  | Ok name => py_eq_str name city
  | Raise _ => false
  end.

Fixpoint no_space (s : string) : bool :=
  match s with
  | EmptyString => true
  | String c s' => negb (Ascii.eqb c " "%char) && no_space s'
  end.

(** The parameters of the availability search. *)
Definition availability_info (origin destination : JSON) (date : string)
  : JSON :=
  JDict [("origination-airport", origin);
         ("destination-airport", destination);
         ("departure-date", JStr date);
         ("number-adult-passengers", JStr "8");
         ("currency", JStr "USD")].

(** A one-way reservation: one leg, one bound. *)
Definition one_way_world (cards : JSON) : World :=
  {| responses :=
       [ok_response
          (JDict [("viewReservationViewPage",
                   JDict [("bounds",
                           JList [JDict [("fareProductDetails",
                                          JDict [("fareProductId", JStr "WGA")])]]);
                          ("_links",
                           JDict [("change",
                                   JDict [("href", JStr slashed_href);
                                          ("query", example_change_query)])])])]);
        ok_response (JDict [("changeFlightPage", example_page [bound_one])]);
        ok_response (shopping_response cards (JList []))];
     events := [] |}.

(** A server that refuses every attempt of one request. *)
Definition refusing_world : World :=
  {| responses := repeat busy_response 7; events := [] |}.

(** Whatever the world, [m] only adds events to the trace. *)
Definition extends_trace {A} (m : M A) : Prop :=
  forall w, exists more, events (snd (m w)) = (events w ++ more)%list.

(** Whatever the world, the first thing [m] does is [e]. *)
Definition starts_with {A} (e : Event) (m : M A) : Prop :=
  forall w, exists rest, events (snd (m w)) = (events w ++ e :: rest)%list.

(** The entry of the search query for one bound. *)
Definition query_entry (reference date destination origin : JSON)
  (change_bound : bool) : JSON :=
  JDict [("boundReference", reference);
         ("date", date);
         ("destination-airport", destination);
         ("origin-airport", origin);
         ("isChangeBound", JBool change_bound)].

(** A reservation whose change-flight page lists no bound. *)
Definition boundless_world : World :=
  {| responses :=
       [ok_response (reservation_response slashed_href);
        ok_response (JDict [("changeFlightPage", example_page [])])];
     events := [] |}.

(** A page with three bounds and two bound references. *)
Definition short_references : list JSON :=
  [JDict [("boundReference", JStr "bound_1")];
   JDict [("boundReference", JStr "bound_2")]].

Definition short_body_page : JSON :=
  JDict [("boundSelections", JList [bound_one; bound_two; bound_three]);
         ("_links",
          JDict [("changeShopping",
                  JDict [("href", JStr "v1/mobile-air-booking/page/flights/change/shopping");
                         ("body", JList short_references)])])].

Definition priced_card (time : string) (price : JSON) : JSON :=
  JDict [("departureTime", JStr time); ("startingFromPrice", price)].

(** A card whose only fare has a price difference without an amount. *)
Definition incomplete_delta : list (string * JSON) :=
  [("sign", JStr "-"); ("currencyCode", JStr "USD")].

Definition incomplete_card : JSON :=
  JDict [("departureTime", JStr "12:00");
         ("fares",
          JList [JDict [("_meta", JDict [("fareProductId", JStr "WGA")]);
                        ("priceDifference", JDict incomplete_delta)]])].

(** The query of the example round trip, as the test suite expects it. *)
Definition query_of_round_trip (flight : Flight) : JSON :=
  JDict [("outbound",
          query_entry (JStr "bound_1") (JStr "1/1") (JStr "LAX") (JStr "MIA")
            (py_eq_str (JStr "12:00") (local_departure_time flight)));
         ("inbound",
          query_entry (JStr "bound_2") (JStr "1/2") (JStr "MIA") (JStr "LAX")
            (py_eq_str (JStr "1:00") (local_departure_time flight)))].

(** ** Reasoning about computations *)

Lemma bind_ok {A B} (m : M A) (k : A -> M B) w a w' :
  m w = (Ok a, w') -> bind m k w = k a w'.
Proof. unfold bind; intros ->; reflexivity. Qed.

Lemma bind_lift_ok {A B} (r : result A) (k : A -> M B) w a :
  r = Ok a -> bind (lift r) k w = k a w.
Proof. intros ->; reflexivity. Qed.

Lemma subscript_dict d k v :
  lookup k d = Some v -> subscript (JDict d) k = Ok v.
Proof. simpl; intros ->; reflexivity. Qed.

(** ** The transport: [make_request] *)

Lemma failed_attempts_S post url headers info n :
  failed_attempts post url headers info (S n) =
  (failed_attempt post url headers info ++
   failed_attempts post url headers info n)%list.
Proof. reflexivity. Qed.

(** Attempts that all fail consume one response each and leave the last of
    them in [response]. *)
Lemma attempt_loop_failures post url headers info :
  forall failed k prev w rest,
    responses w = (failed ++ rest)%list ->
    Forall not_200 failed ->
    attempt_loop post url headers info (length failed + k) prev w =
    attempt_loop post url headers info k
      (fold_left (fun _ r => Some r) failed prev)
      {| responses := rest;
         events := events w ++
                   failed_attempts post url headers info (length failed) |}.
Proof.
  induction failed as [|r failed IH]; intros k prev w rest Hw Hall.
  - simpl in *. unfold failed_attempts; simpl. rewrite app_nil_r.
    destruct w; simpl in *; subst; reflexivity.
  - inversion Hall as [|? ? Hr Hrest]; subst.
    cbn [length Nat.add attempt_loop].
    unfold bind at 1, http. rewrite Hw. cbn [app].
    apply Z.eqb_neq in Hr. rewrite Hr.
    unfold bind at 1, sleep_half_second, emit. cbn [responses events].
    rewrite (IH k (Some r) _ rest); [|reflexivity|assumption].
    cbn [responses events].
    rewrite failed_attempts_S. unfold failed_attempt.
    rewrite <- !app_assoc. reflexivity.
Qed.

(** C9. Let [r] be the response to the last attempt [make_request] makes:
    all the attempts before it failed, and either [r] has status 200 or
    [r] answers attempt number [max_attempts]. If [r] has status 200,
    [make_request] returns its decoded body at once, without a pause. If
    not, all [max_attempts] attempts have failed, each followed by the
    same half-second pause, and [make_request] raises a [RequestError]
    whose message is the reason phrase of [r], a space and its status
    code. *)
Theorem make_request_retries_then_reports_last_response :
  forall method site headers info max_attempts w failed r rest,
    responses w = (failed ++ r :: rest)%list ->
    Forall not_200 failed ->
    Z.of_nat (length failed) < max_attempts ->
    status_code r = 200 \/ Z.of_nat (length failed) = max_attempts - 1 ->
    let post := String.eqb method "POST" in
    let url := BASE_URL ++ site in
    make_request method site headers info max_attempts w =
    if status_code r =? 200 then
      (Ok (json r),
       add_events {| responses := rest; events := events w |}
         (failed_attempts post url headers info (length failed) ++
          [HttpCall post url headers info]))
    else
      (Raise (RequestError (reason r ++ " " ++ str_of_int (status_code r))),
       add_events {| responses := rest; events := events w |}
         (failed_attempts post url headers info (Z.to_nat max_attempts))).
Proof.
  intros method site headers info max_attempts w failed r rest
    Hw Hfailed Hlt Hlast post url.
  unfold make_request. fold post url.
  assert (Hn : Z.to_nat max_attempts =
               (length failed + S (Z.to_nat max_attempts - S (length failed)))%nat)
    by lia.
  rewrite Hn.
  rewrite (attempt_loop_failures post url headers info failed _ None w
             (r :: rest) Hw Hfailed).
  cbn [attempt_loop]. unfold bind at 1, http. cbn [responses events].
  destruct (status_code r =? 200) eqn:E.
  - unfold ret, add_events. cbn [responses events].
    rewrite <- app_assoc. reflexivity.
  - destruct Hlast as [H200 | Hmax].
    + apply Z.eqb_neq in E. contradiction.
    + replace (Z.to_nat max_attempts - S (length failed))%nat with 0%nat by lia.
      unfold bind at 1, sleep_half_second, emit. cbn [responses events].
      cbn [attempt_loop]. unfold raise, add_events. cbn [responses events].
      replace (length failed + 1)%nat with (S (length failed)) by lia.
      do 2 f_equal.
      rewrite <- !app_assoc. f_equal.
      clear. induction (length failed) as [|n IHn]; [reflexivity|].
      rewrite !failed_attempts_S. rewrite <- app_assoc. f_equal. exact IHn.
Qed.

(** With no attempt allowed the loop body never runs and [response] is
    read unbound. *)
Lemma make_request_without_attempts method site headers info max_attempts w :
  max_attempts <= 0 ->
  make_request method site headers info max_attempts w =
  (Raise UnboundLocalError, w).
Proof.
  intros H. unfold make_request.
  replace (Z.to_nat max_attempts) with 0%nat by lia. reflexivity.
Qed.

(** ** The price check *)

(** C1. Let the price found for the flight be a fare delta with an amount
    and a currency code, whose sign is a string or is absent (rendered as
    the empty string). When the sign is "-", [check_flight_price] calls
    the lower-fare notifier exactly once, with the text
    "{sign}{amount} {currencyCode}"; for "+", for an absent sign and for
    any other sign it sends nothing. It returns normally either way. *)
Theorem check_flight_price_notifies_only_lower_fare :
  forall flight w w1 d sign amount currencyCode,
    _get_flight_price flight w = (Ok (JDict d), w1) ->
    lookup "sign" d = option_map JStr sign ->
    lookup "amount" d = Some amount ->
    lookup "currencyCode" d = Some currencyCode ->
    check_flight_price flight w =
    (Ok tt,
     if String.eqb (rendered_sign sign) "-" then
       add_events w1
         [LowerFare flight
            (rendered_sign sign ++ py_str amount ++ " " ++ py_str currencyCode)]
     else w1).
Proof.
  intros flight w w1 d sign amount currencyCode Hprice Hsign Hamount Hcode.
  unfold check_flight_price.
  rewrite (bind_ok _ _ _ _ _ Hprice).
  assert (Hget : py_get (JDict d) "sign" (JStr "") =
                 Ok (JStr (rendered_sign sign))).
  { simpl. rewrite Hsign. destruct sign; reflexivity. }
  rewrite (bind_lift_ok _ _ _ _ Hget).
  rewrite (bind_lift_ok _ _ _ _ (subscript_dict _ _ _ Hamount)).
  rewrite (bind_lift_ok _ _ _ _ (subscript_dict _ _ _ Hcode)).
  unfold py_eq_str. cbn [py_eq py_str].
  destruct (String.eqb (rendered_sign sign) "-"); reflexivity.
Qed.

Lemma price_scan_no_match flight fare_type cards :
  forallb (other_time flight) cards = true ->
  price_scan cards fare_type flight = Ok JNull.
Proof.
  induction cards as [|card cards IH]; [reflexivity|].
  cbn [forallb price_scan]. unfold other_time at 1.
  destruct (subscript card "departureTime") as [t|]; [|discriminate].
  cbn [rbind].
  destruct (py_eq_str t (local_departure_time flight)); [discriminate|].
  exact IH.
Qed.

(** When no card departs at the booked time, [_get_flight_price] returns
    [None] and [check_flight_price] fails on [flight_price.get]: nothing
    is sent, and an [AttributeError] is raised. *)
Lemma check_flight_price_without_matching_card :
  forall flight w w1 flights fare_type cards,
    _get_matching_flights flight w = (Ok (flights, fare_type), w1) ->
    py_iter flights = Ok cards ->
    forallb (other_time flight) cards = true ->
    _get_flight_price flight w = (Ok JNull, w1) /\
    check_flight_price flight w = (Raise AttributeError, w1).
Proof.
  intros flight w w1 flights fare_type cards Hflights Hiter Hother.
  assert (Hprice : _get_flight_price flight w = (Ok JNull, w1)).
  { unfold _get_flight_price. rewrite (bind_ok _ _ _ _ _ Hflights).
    rewrite Hiter. cbn [rbind].
    rewrite (price_scan_no_match _ _ _ Hother). reflexivity. }
  split; [exact Hprice|].
  unfold check_flight_price. rewrite (bind_ok _ _ _ _ _ Hprice). reflexivity.
Qed.

(** ** The availability check *)

Lemma find_scan_no_match flight cards :
  forallb (other_time flight) cards = true ->
  _find_matching_flight_scan flight cards = Ok JNull.
Proof.
  induction cards as [|card cards IH]; [reflexivity|].
  cbn [forallb _find_matching_flight_scan]. unfold other_time at 1.
  destruct (subscript card "departureTime") as [t|]; [|discriminate].
  cbn [rbind].
  destruct (py_eq_str t (local_departure_time flight)); [discriminate|].
  exact IH.
Qed.

(** A card found by [_find_matching_flight] is one of the cards, and it
    departs at the booked time. *)
Lemma find_scan_found flight cards card :
  _find_matching_flight_scan flight cards = Ok card ->
  card <> JNull ->
  In card cards /\
  exists t, subscript card "departureTime" = Ok t /\
            py_eq_str t (local_departure_time flight) = true.
Proof.
  induction cards as [|c cards IH]; cbn [_find_matching_flight_scan].
  - intros [= <-] Hnull. contradiction.
  - destruct (subscript c "departureTime") as [t|] eqn:Et; [|discriminate].
    cbn [rbind].
    destruct (py_eq_str t (local_departure_time flight)) eqn:E.
    + intros [= <-] _. split; [left; reflexivity|eauto].
    + intros H Hnull. destruct (IH H Hnull) as [Hin Ht].
      split; [right; exact Hin|exact Ht].
Qed.

(** C5, as the code has it. For the card matched for the flight,
    [check_passenger_availability] calls the flight-unavailable notifier
    (once) exactly when the card has the key [startingFromPrice] with
    value null. With any other value under the key it returns without a
    notification; without the key it raises [KeyError] and sends
    nothing. *)
Theorem check_passenger_availability_notifies_on_null_price :
  forall flight w w1 flights_available card,
    _search_for_new_booking_on_same_flight flight w =
      (Ok flights_available, w1) ->
    _find_matching_flight flight flights_available = Ok (JDict card) ->
    check_passenger_availability flight w =
    match lookup "startingFromPrice" card with
    | Some JNull => (Ok tt, add_events w1 [FlightUnavailable flight])
    | Some _ => (Ok tt, w1)
    | None => (Raise (KeyError "startingFromPrice"), w1)
    end.
Proof.
  intros flight w w1 flights_available card Hsearch Hfind.
  unfold check_passenger_availability.
  rewrite (bind_ok _ _ _ _ _ Hsearch).
  rewrite (bind_lift_ok _ _ _ _ Hfind).
  unfold bind, lift. cbn [subscript].
  destruct (lookup "startingFromPrice" card) as [[| | | | |]|]; reflexivity.
Qed.

(** C7. When the availability search answers with cards none of which
    departs at the booked time, [_find_matching_flight] returns [None]
    and the subscript [matching_flight["startingFromPrice"]] fails:
    [check_passenger_availability] raises (a [TypeError]) instead of
    returning, and sends no notification. The price flow's
    [_get_flight_price] returns [None] without raising on the same
    cards. *)
Theorem check_passenger_availability_raises_without_matching_card :
  forall flight w w1 flights_available cards fare_type,
    _search_for_new_booking_on_same_flight flight w =
      (Ok flights_available, w1) ->
    py_iter flights_available = Ok cards ->
    forallb (other_time flight) cards = true ->
    check_passenger_availability flight w = (Raise TypeError, w1) /\
    fst (check_passenger_availability flight w) <> Ok tt /\
    price_scan cards fare_type flight = Ok JNull.
Proof.
  intros flight w w1 flights_available cards fare_type Hsearch Hiter Hother.
  assert (H : check_passenger_availability flight w = (Raise TypeError, w1)).
  { unfold check_passenger_availability.
    rewrite (bind_ok _ _ _ _ _ Hsearch).
    unfold _find_matching_flight. rewrite Hiter. cbn [rbind].
    rewrite (find_scan_no_match _ _ Hother). reflexivity. }
  split; [exact H|]. split.
  - rewrite H. discriminate.
  - apply price_scan_no_match; exact Hother.
Qed.

(** ** Fare matching *)

Lemma fare_scan_first_match fare_type :
  forall fares,
    forallb well_formed_fare fares = true ->
    fare_scan fares fare_type =
    match find (fare_matches fare_type) fares with
    | Some fare => subscript fare "priceDifference"
    | None =>
        Raise (KeyError ("No fare type found matching " ++ py_str fare_type))
    end.
Proof.
  induction fares as [|fare fares IH]; [reflexivity|].
  cbn [forallb fare_scan find]. intros H.
  apply andb_true_iff in H as [Hwf Hrest].
  unfold well_formed_fare, fare_product_id in Hwf.
  unfold fare_matches, fare_product_id.
  destruct (subscript fare "_meta") as [meta|]; [|discriminate].
  cbn [rbind] in *.
  destruct (subscript meta "fareProductId") as [id|]; [|discriminate].
  cbn [rbind].
  destruct (py_eq id fare_type); [reflexivity|].
  apply IH; exact Hrest.
Qed.

(** C6. On a list of well-formed fares, [_get_matching_fare] returns the
    price difference of the first fare whose [_meta.fareProductId] equals
    the expected fare type, without raising; when no fare has it, it
    raises a [KeyError] naming the fare type, which is not the [None] a
    missing flight gives. *)
Theorem get_matching_fare_returns_fare_or_raises_key_error :
  forall fares fare_list fare_type,
    py_iter fares = Ok fare_list ->
    forallb well_formed_fare fare_list = true ->
    match find (fare_matches fare_type) fare_list with
    | Some fare =>
        exists price,
          subscript fare "priceDifference" = Ok price /\
          _get_matching_fare fares fare_type = Ok price
    | None =>
        _get_matching_fare fares fare_type =
          Raise (KeyError ("No fare type found matching " ++ py_str fare_type))
        /\ _get_matching_fare fares fare_type <> Ok JNull
    end.
Proof.
  intros fares fare_list fare_type Hiter Hwf.
  unfold _get_matching_fare. rewrite Hiter. cbn [rbind].
  rewrite (fare_scan_first_match fare_type fare_list Hwf).
  destruct (find (fare_matches fare_type) fare_list) as [fare|] eqn:Efind.
  - apply find_some in Efind as [Hin _].
    rewrite forallb_forall in Hwf. specialize (Hwf fare Hin).
    unfold well_formed_fare in Hwf.
    destruct (fare_product_id fare); [|discriminate].
    destruct (subscript fare "priceDifference") as [price|]; [|discriminate].
    exists price; split; reflexivity.
  - split; [reflexivity|discriminate].
Qed.

(** ** The search query *)

Lemma has_key_ok k x : has_key k x = true -> exists v, subscript x k = Ok v.
Proof.
  unfold has_key. destruct (subscript x k) as [v|]; [eauto|discriminate].
Qed.

Lemma search_term_ok body flight idx bound :
  bound_ok body idx bound = true ->
  exists term time,
    search_term body flight idx bound = Ok term /\
    subscript bound "timeDeparts" = Ok time /\
    subscript term "isChangeBound" =
      Ok (JBool (py_eq_str time (local_departure_time flight))).
Proof.
  unfold bound_ok, search_term. intros H.
  repeat (apply andb_true_iff in H as [H ?]).
  destruct (subscript_int body idx) as [reference|]; [|discriminate].
  cbn [rbind].
  repeat match goal with
         | Hk : has_key _ _ = true |- _ =>
             apply has_key_ok in Hk as [? Hk]; rewrite Hk
         end.
  cbn [rbind]. eexists _, _. split; [reflexivity|]. split; reflexivity.
Qed.

Lemma search_term_ok_inv body flight idx bound term :
  search_term body flight idx bound = Ok term ->
  bound_ok body idx bound = true.
Proof.
  unfold bound_ok, search_term, has_key.
  destruct (subscript_int body idx) as [reference|]; [|discriminate].
  cbn [rbind].
  destruct (subscript reference "boundReference"); [|discriminate].
  cbn [rbind].
  destruct (subscript bound "originalDate"); [|discriminate]. cbn [rbind].
  destruct (subscript bound "toAirportCode"); [|discriminate]. cbn [rbind].
  destruct (subscript bound "fromAirportCode"); [|discriminate]. cbn [rbind].
  destruct (subscript bound "timeDeparts"); [|discriminate].
  reflexivity.
Qed.

Lemma search_terms_ok body flight :
  forall bounds idx,
    bounds_ok body idx bounds = true ->
    exists terms,
      search_terms_from body flight idx bounds = Ok terms /\
      length terms = length bounds.
Proof.
  induction bounds as [|bound bounds IH]; intros idx H.
  - exists []; split; reflexivity.
  - cbn [bounds_ok] in H. apply andb_true_iff in H as [Hb Hrest].
    destruct (search_term_ok body flight idx bound Hb) as (term & _ & Ht & _).
    destruct (IH (S idx) Hrest) as (terms & Hts & Hlen).
    exists (term :: terms). cbn [search_terms_from].
    rewrite Ht, Hts. cbn [rbind length]. split; congruence.
Qed.

Lemma search_terms_ok_inv body flight :
  forall bounds idx terms,
    search_terms_from body flight idx bounds = Ok terms ->
    bounds_ok body idx bounds = true.
Proof.
  induction bounds as [|bound bounds IH]; intros idx terms H; [reflexivity|].
  cbn [search_terms_from bounds_ok] in *.
  destruct (search_term body flight idx bound) as [term|] eqn:Et;
    [|discriminate].
  cbn [rbind] in H.
  destruct (search_terms_from body flight (S idx) bounds) as [ts|] eqn:Ets;
    [|discriminate].
  rewrite (search_term_ok_inv _ _ _ _ _ Et), (IH _ _ Ets). reflexivity.
Qed.

Lemma search_terms_nth body flight :
  forall bounds idx terms k bound,
    search_terms_from body flight idx bounds = Ok terms ->
    nth_error bounds k = Some bound ->
    exists term,
      nth_error terms k = Some term /\
      search_term body flight (idx + k) bound = Ok term.
Proof.
  induction bounds as [|b bounds IH]; intros idx terms k bound H Hk.
  - destruct k; discriminate.
  - cbn [search_terms_from] in H.
    destruct (search_term body flight idx b) as [term|] eqn:Et;
      [|discriminate].
    cbn [rbind] in H.
    destruct (search_terms_from body flight (S idx) bounds) as [ts|] eqn:Ets;
      [|discriminate].
    injection H as <-.
    destruct k as [|k]; cbn [nth_error] in *.
    + injection Hk as <-. exists term. rewrite Nat.add_0_r. auto.
    + destruct (IH (S idx) ts k bound Ets Hk) as (t & Hn & Hs).
      exists t. split; [exact Hn|].
      replace (idx + S k)%nat with (S idx + k)%nat by lia. exact Hs.
Qed.

Lemma search_terms_firstn body flight n :
  forall bounds idx terms,
    search_terms_from body flight idx bounds = Ok terms ->
    search_terms_from body flight idx (firstn n bounds) = Ok (firstn n terms).
Proof.
  induction n as [|n IH]; intros bounds idx terms H; [reflexivity|].
  destruct bounds as [|b bounds].
  - injection H as <-. reflexivity.
  - cbn [search_terms_from firstn] in *.
    destruct (search_term body flight idx b) as [term|]; [|discriminate].
    cbn [rbind] in *.
    destruct (search_terms_from body flight (S idx) bounds) as [ts|] eqn:Ets;
      [|discriminate].
    injection H as <-.
    rewrite (IH bounds (S idx) ts Ets). reflexivity.
Qed.

Lemma get_search_query_unfold flight page body selections :
  page_body page = Ok body ->
  subscript page "boundSelections" = Ok selections ->
  _get_search_query page flight =
  (bounds <- py_iter selections ;;
   terms <- search_terms_from body flight 0 bounds ;;
   Ok (JDict (combine ["outbound"; "inbound"] terms)))%res.
Proof.
  unfold page_body, _get_search_query. intros Hbody Hsel.
  destruct (subscript page "_links") as [links|]; [|discriminate].
  cbn [rbind] in *.
  destruct (subscript links "changeShopping") as [cs|]; [|discriminate].
  cbn [rbind] in *.
  rewrite Hbody, Hsel. reflexivity.
Qed.

Lemma combine_roles_keys (terms : list JSON) :
  map fst (combine ["outbound"; "inbound"] terms) =
  firstn (length terms) ["outbound"; "inbound"].
Proof. destruct terms as [|t1 [|t2 [|t3 ts]]]; reflexivity. Qed.

Lemma combine_roles_firstn (terms : list JSON) :
  combine ["outbound"; "inbound"] (firstn 2 terms) =
  combine ["outbound"; "inbound"] terms.
Proof. destruct terms as [|t1 [|t2 [|t3 ts]]]; reflexivity. Qed.

Lemma combine_roles_lookup (terms : list JSON) i role term :
  nth_error ["outbound"; "inbound"] i = Some role ->
  nth_error terms i = Some term ->
  subscript (JDict (combine ["outbound"; "inbound"] terms)) role = Ok term.
Proof.
  destruct i as [|[|i]]; cbn [nth_error].
  - intros [= <-]. destruct terms as [|t ts]; [discriminate|].
    intros [= <-]. reflexivity.
  - intros [= <-]. destruct terms as [|t [|t' ts]]; try discriminate.
    intros [= <-]. reflexivity.
  - destruct i; discriminate.
Qed.

(** Every page for which [_get_search_query] returns a query is one whose
    bounds all have their fields and their references. *)
Lemma search_query_produced_from_well_formed_page flight page query :
  _get_search_query page flight = Ok query ->
  exists body selections bounds,
    page_body page = Ok body /\
    subscript page "boundSelections" = Ok selections /\
    py_iter selections = Ok bounds /\
    bounds_ok body 0 bounds = true.
Proof.
  unfold _get_search_query, page_body.
  destruct (subscript page "_links") as [links|]; [|discriminate].
  cbn [rbind].
  destruct (subscript links "changeShopping") as [cs|]; [|discriminate].
  cbn [rbind].
  destruct (subscript cs "body") as [body|]; [|discriminate].
  cbn [rbind].
  destruct (subscript page "boundSelections") as [sel|]; [|discriminate].
  cbn [rbind].
  destruct (py_iter sel) as [bounds|] eqn:Eiter; [|discriminate].
  cbn [rbind].
  destruct (search_terms_from body flight 0 bounds) as [terms|] eqn:E;
    [|discriminate].
  intros _. exists body, sel, bounds.
  split; [reflexivity|]. split; [reflexivity|]. split; [exact Eiter|].
  exact (search_terms_ok_inv _ _ _ _ _ E).
Qed.

(** C2. For a change-flight page whose bounds have their fields and
    references: with one bound the query has exactly the key "outbound";
    with two it has exactly "outbound" and "inbound", in the order of the
    bounds. The entry of each bound has [isChangeBound] true exactly when
    the bound's [timeDeparts] equals the booked flight's local departure
    time; so for a one-way page whose bound is the booked flight, the
    "outbound" entry has [isChangeBound] true. *)
Theorem search_query_roles_and_change_bound :
  forall flight page body bounds,
    page_body page = Ok body ->
    subscript page "boundSelections" = Ok (JList bounds) ->
    bounds_ok body 0 bounds = true ->
    (length bounds = 1 \/ length bounds = 2)%nat ->
    exists query,
      _get_search_query page flight = Ok query /\
      dict_keys query =
        match bounds with
        | [_] => ["outbound"]
        | _ => ["outbound"; "inbound"]
        end /\
      (forall i bound role,
         nth_error bounds i = Some bound ->
         nth_error ["outbound"; "inbound"] i = Some role ->
         exists entry time,
           subscript query role = Ok entry /\
           subscript bound "timeDeparts" = Ok time /\
           subscript entry "isChangeBound" =
             Ok (JBool (py_eq_str time (local_departure_time flight)))) /\
      (forall bound,
         bounds = [bound] ->
         subscript bound "timeDeparts" =
           Ok (JStr (local_departure_time flight)) ->
         exists entry,
           subscript query "outbound" = Ok entry /\
           subscript entry "isChangeBound" = Ok (JBool true)).
Proof.
  intros flight page body bounds Hbody Hsel Hok Hlen.
  destruct (search_terms_ok body flight bounds 0 Hok) as (terms & Hterms & Hn).
  exists (JDict (combine ["outbound"; "inbound"] terms)).
  assert (Hentries :
    forall i bound role,
      nth_error bounds i = Some bound ->
      nth_error ["outbound"; "inbound"] i = Some role ->
      exists entry time,
        subscript (JDict (combine ["outbound"; "inbound"] terms)) role =
          Ok entry /\
        subscript bound "timeDeparts" = Ok time /\
        subscript entry "isChangeBound" =
          Ok (JBool (py_eq_str time (local_departure_time flight)))).
  { intros i bound role Hi Hrole.
    destruct (search_terms_nth body flight bounds 0 terms i bound Hterms Hi)
      as (term & Hnth & Hterm).
    assert (Hb : bound_ok body (0 + i) bound = true)
      by exact (search_term_ok_inv _ _ _ _ _ Hterm).
    destruct (search_term_ok body flight (0 + i) bound Hb)
      as (term' & time & Hterm' & Htime & Hflag).
    assert (term' = term) by congruence. subst term'.
    exists term, time. split; [|split; assumption].
    exact (combine_roles_lookup terms i role term Hrole Hnth). }
  split; [|split; [|split]].
  - rewrite (get_search_query_unfold flight page body _ Hbody Hsel).
    cbn [py_iter rbind]. rewrite Hterms. reflexivity.
  - cbn [dict_keys]. rewrite combine_roles_keys, Hn.
    destruct bounds as [|b1 [|b2 [|b3 bs]]]; cbn [length] in Hlen;
      try reflexivity; lia.
  - exact Hentries.
  - intros bound -> Htime.
    destruct (Hentries 0%nat bound "outbound" eq_refl eq_refl)
      as (entry & time & Hentry & Htime' & Hflag).
    exists entry. split; [exact Hentry|].
    rewrite Htime in Htime'. injection Htime' as <-.
    rewrite Hflag. unfold py_eq_str. cbn [py_eq].
    rewrite String.eqb_refl. reflexivity.
Qed.

(** C10. Whenever [_get_search_query] produces a query (that is, for
    every page whose bounds all have their fields and references), the
    query is built from the first two bounds alone: it binds "outbound"
    to the first and "inbound" to the second, has at most two entries,
    has "inbound" only together with "outbound", and holds nothing of a
    third or later bound; no error is raised for the bounds left out. *)
Theorem search_query_keeps_first_two_bounds :
  forall flight page body selections bounds,
    page_body page = Ok body ->
    subscript page "boundSelections" = Ok selections ->
    py_iter selections = Ok bounds ->
    bounds_ok body 0 bounds = true ->
    exists query terms,
      _get_search_query page flight = Ok query /\
      search_terms_from body flight 0 (firstn 2 bounds) = Ok terms /\
      query = JDict (combine ["outbound"; "inbound"] terms) /\
      dict_keys query = firstn (length bounds) ["outbound"; "inbound"] /\
      (length (dict_keys query) <= 2)%nat /\
      (In "inbound" (dict_keys query) -> In "outbound" (dict_keys query)).
Proof.
  intros flight page body selections bounds Hbody Hsel Hiter Hok.
  destruct (search_terms_ok body flight bounds 0 Hok) as (terms & Hterms & Hn).
  exists (JDict (combine ["outbound"; "inbound"] (firstn 2 terms))),
    (firstn 2 terms).
  assert (Hkeys :
    dict_keys (JDict (combine ["outbound"; "inbound"] (firstn 2 terms))) =
    firstn (length bounds) ["outbound"; "inbound"]).
  { rewrite combine_roles_firstn. cbn [dict_keys].
    rewrite combine_roles_keys, Hn. reflexivity. }
  split; [|split; [|split; [|split; [|split]]]].
  - rewrite (get_search_query_unfold flight page body _ Hbody Hsel).
    rewrite Hiter. cbn [rbind]. rewrite Hterms. cbn [rbind].
    rewrite combine_roles_firstn. reflexivity.
  - exact (search_terms_firstn body flight 2 bounds 0 terms Hterms).
  - reflexivity.
  - exact Hkeys.
  - rewrite Hkeys. rewrite length_firstn. cbn [length]. lia.
  - rewrite Hkeys.
    destruct (length bounds) as [|[|n]]; cbn [firstn]; intros Hin.
    + destruct Hin.
    + left; reflexivity.
    + left; reflexivity.
Qed.

(** ** Bound-page resolution *)

(** C3. Let [query] be the search query built for the change-flight page.
    When its "outbound" entry has a true [isChangeBound],
    [_get_matching_flights] returns the cards of the outbound page of the
    shopping response and the fare product of leg 0 of the reservation;
    otherwise it returns the cards of the inbound page and the fare
    product of leg 1. *)
Theorem matching_flights_follow_change_bound :
  forall flight w w1 w2 page fare_type_bounds query outbound isChangeBound
         links info href fare_type response cards,
    _get_change_flight_page flight w = (Ok (page, fare_type_bounds), w1) ->
    _get_search_query page flight = Ok query ->
    subscript page "_links" = Ok links ->
    subscript links "changeShopping" = Ok info ->
    subscript info "href" = Ok (JStr href) ->
    subscript query "outbound" = Ok outbound ->
    subscript outbound "isChangeBound" = Ok isChangeBound ->
    fare_type_of_leg fare_type_bounds
      (if py_truthy isChangeBound then 0 else 1)%nat = Ok fare_type ->
    make_request "POST" (BOOKING_URL ++ href) (headers flight_retriever)
      query 7 w1 = (Ok response, w2) ->
    cards_of_page response
      (if py_truthy isChangeBound then "outboundPage" else "inboundPage") =
      Ok cards ->
    _get_matching_flights flight w = (Ok (cards, fare_type), w2).
Proof.
  intros flight w w1 w2 page fare_type_bounds query outbound isChangeBound
    links info href fare_type response cards
    Hpage Hquery Hlinks Hinfo Hhref Hout Hflag Hfare Hpost Hcards.
  unfold _get_matching_flights.
  rewrite (bind_ok _ _ _ _ _ Hpage). cbv beta iota.
  rewrite (bind_lift_ok _ _ _ _ Hquery).
  rewrite (bind_lift_ok _ _ w1 info);
    [|rewrite Hlinks; cbn [rbind]; exact Hinfo].
  rewrite (bind_lift_ok _ _ w1 (BOOKING_URL ++ href));
    [|rewrite Hhref; reflexivity].
  rewrite (bind_lift_ok _ _ w1 isChangeBound);
    [|rewrite Hout; cbn [rbind]; exact Hflag].
  cbv zeta.
  unfold fare_type_of_leg in Hfare. unfold cards_of_page in Hcards.
  destruct (py_truthy isChangeBound); cbn [String.eqb Ascii.eqb Bool.eqb].
  - cbv beta iota.
    rewrite (bind_lift_ok _ _ w1 fare_type Hfare).
    rewrite (bind_ok _ _ _ _ _ Hpost).
    rewrite (bind_lift_ok _ _ w2 cards Hcards). reflexivity.
  - cbv beta iota.
    rewrite (bind_lift_ok _ _ w1 fare_type Hfare).
    rewrite (bind_ok _ _ _ _ _ Hpost).
    rewrite (bind_lift_ok _ _ w2 cards Hcards). reflexivity.
Qed.

(** ** The change link *)

Lemma lookup_setitem_same k v d : lookup k (setitem k v d) = Some v.
Proof.
  induction d as [|[k' v'] d IH]; cbn [setitem lookup].
  - rewrite String.eqb_refl. reflexivity.
  - destruct (String.eqb k k') eqn:E; cbn [lookup].
    + rewrite String.eqb_refl. reflexivity.
    + rewrite E. exact IH.
Qed.

Lemma lookup_setitem_other k k' v d :
  String.eqb k' k = false -> lookup k' (setitem k v d) = lookup k' d.
Proof.
  intros Hk. induction d as [|[k0 v0] d IH]; cbn [setitem lookup].
  - rewrite Hk. reflexivity.
  - destruct (String.eqb k k0) eqn:E; cbn [lookup].
    + apply String.eqb_eq in E. subst k0. rewrite Hk. reflexivity.
    + rewrite IH. reflexivity.
Qed.

Lemma fix_href_string change href :
  lookup "href" change = Some (JStr href) ->
  fix_href (JDict change) =
  Ok (if contains "/v1/" href
      then JDict (setitem "href" (JStr (tail href)) change)
      else JDict change).
Proof.
  intros H. unfold fix_href. cbn [subscript]. rewrite H.
  cbn [rbind py_in].
  destruct (contains "/v1/" href); reflexivity.
Qed.

(** C8. Let the reservation response carry a change link whose href is a
    string. The pattern is detected when the href contains "/v1/". Then
    [_get_change_flight_page] requests the change-flight page at the href
    without its first character, and the character removed is exactly
    one; when the pattern is not detected it requests the page at the
    href as it is. The query of the link and the fare-product bounds are
    passed on unchanged. *)
Theorem change_flight_page_strips_one_character_on_pattern :
  forall flight w w1 response bounds change href query,
    make_request "GET" (VIEW_RESERVATION_URL ++ confirmation_number flight)
      (headers flight_retriever) traveller_info 7 w = (Ok response, w1) ->
    reservation_bounds response = Ok bounds ->
    reservation_change_link response = Ok (JDict change) ->
    lookup "href" change = Some (JStr href) ->
    lookup "query" change = Some query ->
    exists used,
      (if contains "/v1/" href
       then exists c, href = String c used
       else used = href) /\
      _get_change_flight_page flight w =
      (response <- make_request "GET" (BOOKING_URL ++ used)
                     (headers flight_retriever) query 7 ;;
       page <- lift (subscript response "changeFlightPage") ;;
       ret (page, bounds))%io w1.
Proof.
  intros flight w w1 response bounds change href query
    Hget Hbounds Hchange Hhref Hquery.
  exists (if contains "/v1/" href then tail href else href).
  split.
  - destruct href as [|c rest]; [reflexivity|].
    destruct (contains "/v1/" (String c rest)); [|reflexivity].
    exists c. reflexivity.
  - unfold _get_change_flight_page. cbv zeta.
    unfold traveller_info in Hget.
    rewrite (bind_ok _ _ _ _ _ Hget).
    unfold reservation_bounds in Hbounds.
    rewrite (bind_lift_ok _ _ w1 bounds Hbounds).
    unfold reservation_change_link in Hchange.
    rewrite (bind_lift_ok _ _ w1 (JDict change) Hchange).
    rewrite (bind_lift_ok _ _ w1 _ (fix_href_string change href Hhref)).
    destruct (contains "/v1/" href).
    + rewrite (bind_lift_ok _ _ w1 (BOOKING_URL ++ tail href));
        [|cbn [subscript]; rewrite lookup_setitem_same; reflexivity].
      rewrite (bind_lift_ok _ _ w1 query);
        [reflexivity|].
      cbn [subscript].
      rewrite lookup_setitem_other by reflexivity.
      rewrite Hquery. reflexivity.
    + rewrite (bind_lift_ok _ _ w1 (BOOKING_URL ++ href));
        [|cbn [subscript]; rewrite Hhref; reflexivity].
      rewrite (bind_lift_ok _ _ w1 query);
        [reflexivity|].
      cbn [subscript]. rewrite Hquery. reflexivity.
Qed.

(** ** What the transport adds to the trace *)

Lemma bind_raise {A B} (m : M A) (k : A -> M B) w e w' :
  m w = (Raise e, w') -> bind m k w = (Raise e, w').
Proof. unfold bind; intros ->; reflexivity. Qed.

Lemma http_calls_app evs1 evs2 :
  http_calls (evs1 ++ evs2) = (http_calls evs1 + http_calls evs2)%nat.
Proof. unfold http_calls. rewrite filter_app, length_app. reflexivity. Qed.

Lemma failed_attempts_transport post url headers info n :
  forallb is_transport (failed_attempts post url headers info n) = true /\
  http_calls (failed_attempts post url headers info n) = n.
Proof.
  induction n as [|n [IH1 IH2]]; [split; reflexivity|].
  rewrite failed_attempts_S, forallb_app, http_calls_app, IH1, IH2.
  split; reflexivity.
Qed.

Lemma attempt_loop_step post url headers info remaining prev w :
  attempt_loop post url headers info (S remaining) prev w =
  match responses w with
  | [] =>
      (Raise ConnectionError,
       {| responses := [];
          events := events w ++ [HttpCall post url headers info] |})
  | r :: rest =>
      if status_code r =? 200 then
        (Ok (json r),
         {| responses := rest;
            events := events w ++ [HttpCall post url headers info] |})
      else
        attempt_loop post url headers info remaining (Some r)
          {| responses := rest;
             events := (events w ++ [HttpCall post url headers info]) ++
                       [Sleep 500] |}
  end.
Proof.
  cbn [attempt_loop]. unfold bind at 1, http.
  destruct (responses w) as [|r rest]; [reflexivity|].
  destruct (status_code r =? 200); reflexivity.
Qed.

(** The trace of the retry loop, whatever the server answers: attempts
    that fail, each with its pause, and then either nothing more (the
    attempts are used up) or one last call (answered with 200, or not
    answered at all). *)
Lemma attempt_loop_trace post url headers info :
  forall remaining prev w,
    exists k,
      (k = remaining /\
       events (snd (attempt_loop post url headers info remaining prev w)) =
       (events w ++ failed_attempts post url headers info k)%list) \/
      ((k < remaining)%nat /\
       events (snd (attempt_loop post url headers info remaining prev w)) =
       (events w ++ failed_attempts post url headers info k ++
        [HttpCall post url headers info])%list).
Proof.
  induction remaining as [|remaining IH]; intros prev w.
  - exists 0%nat. left. split; [reflexivity|].
    cbn [attempt_loop]. unfold failed_attempts. cbn [repeat concat].
    rewrite app_nil_r. destruct prev; reflexivity.
  - rewrite attempt_loop_step.
    destruct (responses w) as [|r rest].
    + exists 0%nat. right. split; [lia|reflexivity].
    + destruct (status_code r =? 200).
      * exists 0%nat. right. split; [lia|reflexivity].
      * match goal with
        | |- context [attempt_loop _ _ _ _ remaining ?p ?w'] =>
            destruct (IH p w') as [k [[Hk He] | [Hk He]]]
        end; cbn [events] in He; exists (S k); [left|right];
          (split; [lia|]); rewrite He, failed_attempts_S;
          unfold failed_attempt; rewrite <- !app_assoc; reflexivity.
Qed.

(** X3. Whatever the server answers, [make_request] makes at most
    [max_attempts] HTTP calls, all to [BASE_URL + site] with the same
    headers and parameters (a POST only for the method "POST"), pauses
    half a second after every call but possibly the last, and adds
    nothing else to the trace. *)
Theorem make_request_makes_at_most_max_attempts_calls :
  forall method site headers info max_attempts w,
    let post := String.eqb method "POST" in
    let url := BASE_URL ++ site in
    exists k,
      (k <= Z.to_nat max_attempts)%nat /\
      (events (snd (make_request method site headers info max_attempts w)) =
         (events w ++ failed_attempts post url headers info k)%list \/
       events (snd (make_request method site headers info max_attempts w)) =
         (events w ++ failed_attempts post url headers info k ++
          [HttpCall post url headers info])%list /\
       (k < Z.to_nat max_attempts)%nat).
Proof.
  intros method site headers info max_attempts w post url.
  unfold make_request. fold post url.
  destruct (attempt_loop_trace post url headers info
              (Z.to_nat max_attempts) None w) as [k [[Hk He] | [Hk He]]];
    exists k; (split; [lia|]); [left|right]; auto.
Qed.

(** The body [make_request] returns is the body of an answer with status
    200. *)
Lemma attempt_loop_ok post url headers info :
  forall remaining prev w body w',
    attempt_loop post url headers info remaining prev w = (Ok body, w') ->
    exists r, In r (responses w) /\ status_code r = 200 /\ json r = body.
Proof.
  induction remaining as [|remaining IH]; intros prev w body w'.
  - cbn [attempt_loop]. destruct prev; discriminate.
  - rewrite attempt_loop_step.
    destruct (responses w) as [|r rest] eqn:Ew; [discriminate|].
    destruct (status_code r =? 200) eqn:E.
    + intros [= <- _]. exists r.
      apply Z.eqb_eq in E. split; [left; reflexivity|split; auto].
    + intros H. destruct (IH _ _ _ _ H) as (r' & Hin & Hr).
      exists r'. split; [right; exact Hin|exact Hr].
Qed.

(** X2. A body returned by [make_request] is the decoded body of one of
    the server's answers, and that answer has status 200: the body of a
    refused attempt is never returned. *)
Theorem make_request_returns_only_bodies_of_status_200 :
  forall method site headers info max_attempts w body w',
    make_request method site headers info max_attempts w = (Ok body, w') ->
    exists r, In r (responses w) /\ status_code r = 200 /\ json r = body.
Proof.
  intros method site headers info max_attempts w body w'.
  unfold make_request. apply attempt_loop_ok.
Qed.

(** X1. With [max_attempts] zero or negative the loop body never runs:
    no HTTP call is made and reading the unbound [response] raises
    [UnboundLocalError] instead of a [RequestError]. *)
Theorem make_request_zero_attempts_raises_unbound_local :
  forall method site headers info max_attempts w,
    max_attempts <= 0 ->
    make_request method site headers info max_attempts w =
    (Raise UnboundLocalError, w).
Proof.
  intros method site headers info max_attempts w H. unfold make_request.
  replace (Z.to_nat max_attempts) with 0%nat by lia. reflexivity.
Qed.

(** *** Composing computations that only use the transport *)

Lemma tw_weaken {A} (n n' : nat) (m : M A) :
  transport_within n m -> (n <= n')%nat -> transport_within n' m.
Proof.
  intros H Hn w. destruct (H w) as (evs & He & Ht & Hc).
  exists evs. repeat split; auto. lia.
Qed.

Lemma tw_lift {A} (r : result A) : transport_within 0 (lift r).
Proof.
  intros w. exists []. cbn. rewrite app_nil_r. repeat split; auto.
Qed.

Lemma tw_ret {A} (a : A) : transport_within 0 (ret a).
Proof.
  intros w. exists []. cbn. rewrite app_nil_r. repeat split; auto.
Qed.

Lemma tw_bind {A B} (n1 n2 : nat) (m : M A) (k : A -> M B) :
  transport_within n1 m ->
  (forall a, transport_within n2 (k a)) ->
  transport_within (n1 + n2) (bind m k).
Proof.
  intros Hm Hk w. unfold bind.
  destruct (Hm w) as (evs1 & He1 & Ht1 & Hc1).
  destruct (m w) as [[a|e] w1]; cbn [snd] in He1.
  - destruct (Hk a w1) as (evs2 & He2 & Ht2 & Hc2).
    exists (evs1 ++ evs2)%list. rewrite He2, He1, <- app_assoc.
    rewrite forallb_app, Ht1, Ht2, http_calls_app.
    repeat split; auto. lia.
  - exists evs1. cbn [snd]. repeat split; auto. lia.
Qed.

Lemma tw_make_request method site headers info max_attempts :
  transport_within (Z.to_nat max_attempts)
    (make_request method site headers info max_attempts).
Proof.
  intros w. unfold make_request.
  set (post := String.eqb method "POST"). set (url := BASE_URL ++ site).
  destruct (attempt_loop_trace post url headers info
              (Z.to_nat max_attempts) None w) as [k [[Hk He] | [Hk He]]];
    destruct (failed_attempts_transport post url headers info k) as [Ht Hc].
  - exists (failed_attempts post url headers info k).
    repeat split; auto. lia.
  - exists (failed_attempts post url headers info k ++
            [HttpCall post url headers info])%list.
    rewrite forallb_app, http_calls_app, Ht, Hc.
    repeat split; auto. cbn. lia.
Qed.

Ltac tw_steps :=
  repeat first
    [ apply tw_lift
    | apply tw_ret
    | apply tw_make_request
    | eapply tw_bind; [|intros] ].

Lemma tw_get_change_flight_page flight :
  transport_within 14 (_get_change_flight_page flight).
Proof.
  eapply tw_weaken; [unfold _get_change_flight_page; cbv zeta; tw_steps|].
  cbn. lia.
Qed.

Lemma tw_get_matching_flights flight :
  transport_within 21 (_get_matching_flights flight).
Proof.
  eapply tw_weaken.
  - unfold _get_matching_flights.
    eapply tw_bind; [apply tw_get_change_flight_page|].
    intros [page fare_type_bounds]. cbv zeta. tw_steps.
  - cbn. lia.
Qed.

Lemma tw_get_flight_price flight :
  transport_within 21 (_get_flight_price flight).
Proof.
  eapply tw_weaken.
  - unfold _get_flight_price.
    eapply tw_bind; [apply tw_get_matching_flights|].
    intros [flights fare_type]. apply tw_lift.
  - lia.
Qed.

Lemma tw_search_for_new_booking flight :
  transport_within 7 (_search_for_new_booking_on_same_flight flight).
Proof.
  eapply tw_weaken;
    [unfold _search_for_new_booking_on_same_flight; cbv zeta; tw_steps|].
  cbn. lia.
Qed.

(** ** What the two checks do on any answers of the server *)

(** X4. Whatever the server answers and whether it returns or raises,
    [check_flight_price] makes at most 21 HTTP calls (three requests of
    seven attempts), and after them sends at most one notification, which
    is a lower-fare notification for the flight checked; it never sends a
    flight-unavailable notification. *)
Theorem check_flight_price_calls_and_notifies_boundedly :
  forall flight w,
    exists transport notifications,
      events (snd (check_flight_price flight w)) =
        (events w ++ transport ++ notifications)%list /\
      forallb is_transport transport = true /\
      (http_calls transport <= 21)%nat /\
      (notifications = [] \/
       exists price_info, notifications = [LowerFare flight price_info]).
Proof.
  intros flight w.
  destruct (tw_get_flight_price flight w) as (evs & He & Ht & Hc).
  unfold check_flight_price, bind at 1.
  destruct (_get_flight_price flight w) as [[price|e] w1]; cbn [snd] in He.
  - exists evs. unfold bind, lift.
    destruct (py_get price "sign" (JStr "")) as [sign|];
      [|exists []; rewrite app_nil_r; cbn [snd]; auto].
    destruct (subscript price "amount") as [amount|];
      [|exists []; rewrite app_nil_r; cbn [snd]; auto].
    destruct (subscript price "currencyCode") as [currencyCode|];
      [|exists []; rewrite app_nil_r; cbn [snd]; auto].
    destruct (py_eq_str sign "-").
    + eexists. unfold lower_fare, emit. cbn [snd events].
      rewrite He, <- app_assoc. split; [reflexivity|]. eauto.
    + exists []. rewrite app_nil_r. cbn [snd]. auto.
  - exists evs, []. rewrite app_nil_r. cbn [snd]. auto.
Qed.

(** X5. Whatever the server answers and whether it returns or raises,
    [check_passenger_availability] makes at most 7 HTTP calls (one
    request of seven attempts), and after them sends at most one
    notification, which is a flight-unavailable notification for the
    flight checked; it never sends a lower-fare notification. *)
Theorem check_passenger_availability_calls_and_notifies_boundedly :
  forall flight w,
    exists transport notifications,
      events (snd (check_passenger_availability flight w)) =
        (events w ++ transport ++ notifications)%list /\
      forallb is_transport transport = true /\
      (http_calls transport <= 7)%nat /\
      (notifications = [] \/ notifications = [FlightUnavailable flight]).
Proof.
  intros flight w.
  destruct (tw_search_for_new_booking flight w) as (evs & He & Ht & Hc).
  unfold check_passenger_availability, bind at 1.
  destruct (_search_for_new_booking_on_same_flight flight w)
    as [[flights|e] w1]; cbn [snd] in He.
  - exists evs. unfold bind, lift.
    destruct (_find_matching_flight flight flights) as [card|];
      [|exists []; rewrite app_nil_r; cbn [snd]; auto].
    destruct (subscript card "startingFromPrice") as [price|];
      [|exists []; rewrite app_nil_r; cbn [snd]; auto].
    destruct price;
      try (exists []; rewrite app_nil_r; cbn [snd]; solve [auto]).
    exists [FlightUnavailable flight].
    unfold flight_unavailable, emit. cbn [snd events].
    rewrite He, <- app_assoc. auto.
  - exists evs, []. rewrite app_nil_r. cbn [snd]. auto.
Qed.

(** ** Airport codes and the availability search *)

Lemma airport_scan_first_station city :
  forall stations,
    forallb (has_key "stationName") stations = true ->
    airport_scan stations city =
    match find (station_named city) stations with
    | Some station => subscript station "id"
    | None => Ok JNull
    end.
Proof.
  induction stations as [|station stations IH]; [reflexivity|].
  cbn [forallb airport_scan find]. intros H.
  apply andb_true_iff in H as [Hkey Hrest].
  unfold station_named. apply has_key_ok in Hkey as [name Hname].
  rewrite Hname. cbn [rbind].
  destruct (py_eq_str name city); [reflexivity|].
  exact (IH Hrest).
Qed.

(** X6. When every station of the airports file has a [stationName],
    [get_airport_code] returns the [id] of the first station whose name
    equals the city (raising [KeyError] if that station has no [id]),
    and returns [None], without an error, when no station has the
    name. *)
Theorem get_airport_code_returns_id_of_first_station_named :
  forall city stations_value stations,
    subscript airports_file "airStations" = Ok stations_value ->
    py_iter stations_value = Ok stations ->
    forallb (has_key "stationName") stations = true ->
    get_airport_code city =
    match find (station_named city) stations with
    | Some station => subscript station "id"
    | None => Ok JNull
    end.
Proof.
  intros city stations_value stations Hfile Hiter Hnames.
  unfold get_airport_code. rewrite Hfile. cbn [rbind].
  rewrite Hiter. cbn [rbind].
  exact (airport_scan_first_station city stations Hnames).
Qed.

Lemma before_space_date date rest :
  no_space date = true -> before_space (date ++ " " ++ rest) = date.
Proof.
  induction date as [|c date IH]; cbn [no_space]; intros H.
  - reflexivity.
  - apply andb_true_iff in H as [Hc Hdate]. apply negb_true_iff in Hc.
    change (String c date ++ " " ++ rest)
      with (String c (date ++ " " ++ rest)).
    cbn [before_space]. rewrite Hc, (IH Hdate). reflexivity.
Qed.

Lemma make_request_first_event method site headers info max_attempts w :
  0 < max_attempts ->
  exists rest,
    events (snd (make_request method site headers info max_attempts w)) =
    (events w ++
     HttpCall (String.eqb method "POST") (BASE_URL ++ site) headers info ::
     rest)%list.
Proof.
  intros Hpos. unfold make_request.
  destruct (attempt_loop_trace (String.eqb method "POST") (BASE_URL ++ site)
              headers info (Z.to_nat max_attempts) None w)
    as [k [[Hk He] | [Hk He]]]; rewrite He.
  - destruct k as [|k]; [lia|].
    rewrite failed_attempts_S. unfold failed_attempt. cbn [app]. eauto.
  - destruct k as [|k].
    + unfold failed_attempts. cbn [repeat concat app]. eauto.
    + rewrite failed_attempts_S. unfold failed_attempt. cbn [app]. eauto.
Qed.

Lemma bind_first_event {A B} (m : M A) (k : A -> M B) w e rest :
  events (snd (m w)) = (events w ++ e :: rest)%list ->
  (forall a w1, exists more, events (snd (k a w1)) = (events w1 ++ more)%list) ->
  exists rest',
    events (snd (bind m k w)) = (events w ++ e :: rest')%list.
Proof.
  intros Hm Hk. unfold bind.
  destruct (m w) as [[a|err] w1]; cbn [snd] in Hm.
  - destruct (Hk a w1) as (more & Hmore).
    exists (rest ++ more)%list. rewrite Hmore, Hm, <- app_assoc. reflexivity.
  - exists rest. exact Hm.
Qed.

Lemma lift_adds_nothing {A} (r : result A) w :
  exists more, events (snd (lift r w)) = (events w ++ more)%list.
Proof. exists []. cbn. rewrite app_nil_r. reflexivity. Qed.

Lemma tw_extends {A} n (m : M A) :
  transport_within n m ->
  forall w, exists more, events (snd (m w)) = (events w ++ more)%list.
Proof. intros H w. destruct (H w) as (evs & He & _). eauto. Qed.

(** X7. When both airport lookups return (a code, or [None] for an
    unknown city), the availability search begins with a GET to
    [BASE_URL + SHOPPING_URL] whose parameters are, in this order, the
    two codes as looked up, the departure date, "8" adult passengers and
    the currency "USD"; the date is the text of the departure time
    before its first space. *)
Theorem availability_search_asks_for_eight_adults_on_departure_date :
  forall flight w origin destination date clock,
    get_airport_code (departure_airport flight) = Ok origin ->
    get_airport_code (destination_airport flight) = Ok destination ->
    departure_time flight = date ++ " " ++ clock ->
    no_space date = true ->
    exists rest,
      events (snd (_search_for_new_booking_on_same_flight flight w)) =
      (events w ++
       HttpCall false (BASE_URL ++ SHOPPING_URL) (headers flight_retriever)
         (availability_info origin destination date) :: rest)%list.
Proof.
  intros flight w origin destination date clock Ho Hd Htime Hdate.
  unfold _search_for_new_booking_on_same_flight. cbv zeta.
  rewrite (bind_lift_ok _ _ _ _ Ho), (bind_lift_ok _ _ _ _ Hd).
  rewrite Htime, (before_space_date date clock Hdate).
  cbn [setitem String.eqb Ascii.eqb Bool.eqb].
  destruct (make_request_first_event "GET" SHOPPING_URL
              (headers flight_retriever)
              (availability_info origin destination date) 7 w eq_refl)
    as (rest & Hrest).
  eapply bind_first_event; [exact Hrest|].
  intros a w1. apply lift_adds_nothing.
Qed.

(** ** Matching the booked flight among the cards *)

Lemma find_scan_first_card flight :
  forall cards,
    forallb (has_key "departureTime") cards = true ->
    _find_matching_flight_scan flight cards =
    Ok match find (card_departs_at flight) cards with
       | Some card => card
       | None => JNull
       end.
Proof.
  induction cards as [|card cards IH]; [reflexivity|].
  cbn [forallb _find_matching_flight_scan find]. intros H.
  apply andb_true_iff in H as [Hkey Hrest].
  unfold card_departs_at. apply has_key_ok in Hkey as [t Ht].
  rewrite Ht. cbn [rbind].
  destruct (py_eq_str t (local_departure_time flight)); [reflexivity|].
  exact (IH Hrest).
Qed.

(** X8. On cards that all have a [departureTime],
    [_find_matching_flight] returns the first card whose departure time
    equals the flight's local departure time, and [None] when there is
    none; later cards at the same time are ignored. *)
Theorem find_matching_flight_returns_first_card_at_booked_time :
  forall flight flights_available cards,
    py_iter flights_available = Ok cards ->
    forallb (has_key "departureTime") cards = true ->
    _find_matching_flight flight flights_available =
    Ok match find (card_departs_at flight) cards with
       | Some card => card
       | None => JNull
       end.
Proof.
  intros flight flights_available cards Hiter Hkeys.
  unfold _find_matching_flight. rewrite Hiter. cbn [rbind].
  exact (find_scan_first_card flight cards Hkeys).
Qed.

(** X9. A card without [departureTime] that comes before any card at
    the booked time makes [_find_matching_flight] raise [KeyError], even
    when a matching card follows it. *)
Theorem find_matching_flight_raises_on_card_without_time :
  forall flight flights_available before card rest,
    py_iter flights_available = Ok (before ++ JDict card :: rest)%list ->
    forallb (other_time flight) before = true ->
    lookup "departureTime" card = None ->
    _find_matching_flight flight flights_available =
    Raise (KeyError "departureTime").
Proof.
  intros flight flights_available before card rest Hiter Hbefore Hcard.
  unfold _find_matching_flight. rewrite Hiter. cbn [rbind]. clear Hiter.
  induction before as [|c before IH].
  - cbn [app _find_matching_flight_scan subscript]. rewrite Hcard. reflexivity.
  - cbn [forallb] in Hbefore. apply andb_true_iff in Hbefore as [Hc Hrest].
    cbn [app _find_matching_flight_scan]. unfold other_time in Hc.
    destruct (subscript c "departureTime") as [t|]; [|discriminate].
    cbn [rbind]. apply negb_true_iff in Hc. rewrite Hc.
    exact (IH Hrest).
Qed.

Lemma price_scan_first_card flight fare_type :
  forall before card rest fares,
    forallb (other_time flight) before = true ->
    card_departs_at flight card = true ->
    subscript card "fares" = Ok fares ->
    price_scan (before ++ card :: rest) fare_type flight =
    _get_matching_fare fares fare_type.
Proof.
  induction before as [|c before IH]; intros card rest fares Hbefore Hcard Hfares.
  - cbn [app price_scan]. unfold card_departs_at in Hcard.
    destruct (subscript card "departureTime") as [t|]; [|discriminate].
    cbn [rbind]. rewrite Hcard, Hfares. reflexivity.
  - cbn [forallb] in Hbefore. apply andb_true_iff in Hbefore as [Hc Hrest].
    cbn [app price_scan]. unfold other_time in Hc.
    destruct (subscript c "departureTime") as [t|]; [|discriminate].
    cbn [rbind]. apply negb_true_iff in Hc. rewrite Hc.
    exact (IH card rest fares Hrest Hcard Hfares).
Qed.

(** X10. The price of a flight is looked up in the fares of the first
    card that departs at the booked time, for the fare product of the
    leg that [_get_matching_flights] resolved; cards after it are not
    read. *)
Theorem flight_price_is_matched_fare_of_first_card_at_booked_time :
  forall flight w w1 flights fare_type before card rest fares,
    _get_matching_flights flight w = (Ok (flights, fare_type), w1) ->
    py_iter flights = Ok (before ++ card :: rest)%list ->
    forallb (other_time flight) before = true ->
    card_departs_at flight card = true ->
    subscript card "fares" = Ok fares ->
    _get_flight_price flight w = (_get_matching_fare fares fare_type, w1).
Proof.
  intros flight w w1 flights fare_type before card rest fares
    Hflights Hiter Hbefore Hcard Hfares.
  unfold _get_flight_price. rewrite (bind_ok _ _ _ _ _ Hflights).
  unfold lift. rewrite Hiter. cbn [rbind].
  rewrite (price_scan_first_card flight fare_type before card rest fares
             Hbefore Hcard Hfares).
  reflexivity.
Qed.

(** X11. When the card at the booked time lists well-formed fares none
    of which is for the reservation's fare product, the whole price check
    raises the [KeyError] of [_get_matching_fare] and sends no
    notification. *)
Theorem check_flight_price_raises_on_missing_fare_product :
  forall flight w w1 flights fare_type before card rest fares fare_list,
    _get_matching_flights flight w = (Ok (flights, fare_type), w1) ->
    py_iter flights = Ok (before ++ card :: rest)%list ->
    forallb (other_time flight) before = true ->
    card_departs_at flight card = true ->
    subscript card "fares" = Ok fares ->
    py_iter fares = Ok fare_list ->
    forallb well_formed_fare fare_list = true ->
    find (fare_matches fare_type) fare_list = None ->
    check_flight_price flight w =
    (Raise (KeyError ("No fare type found matching " ++ py_str fare_type)),
     w1).
Proof.
  intros flight w w1 flights fare_type before card rest fares fare_list
    Hflights Hiter Hbefore Hcard Hfares Hlist Hwf Hnone.
  unfold check_flight_price. unfold bind at 1. unfold _get_flight_price.
  rewrite (bind_ok _ _ _ _ _ Hflights).
  unfold lift. rewrite Hiter. cbn [rbind].
  rewrite (price_scan_first_card flight fare_type before card rest fares
             Hbefore Hcard Hfares).
  unfold _get_matching_fare. rewrite Hlist. cbn [rbind].
  rewrite (fare_scan_first_match fare_type fare_list Hwf), Hnone.
  reflexivity.
Qed.

(** X12. A fare delta without [amount], or without [currencyCode], makes
    [check_flight_price] raise [KeyError] for the missing key while it
    builds the price text: nothing is sent, even when the sign is "-". *)
Theorem check_flight_price_raises_on_incomplete_fare_delta :
  forall flight w w1 d,
    _get_flight_price flight w = (Ok (JDict d), w1) ->
    lookup "amount" d = None \/ lookup "currencyCode" d = None ->
    check_flight_price flight w =
    (Raise (KeyError (match lookup "amount" d with
                      | None => "amount"
                      | Some _ => "currencyCode"
                      end)), w1).
Proof.
  intros flight w w1 d Hprice Hmissing.
  unfold check_flight_price. rewrite (bind_ok _ _ _ _ _ Hprice).
  unfold bind, lift. cbn [py_get subscript].
  destruct (lookup "sign" d);
    destruct (lookup "amount" d); destruct (lookup "currencyCode" d);
    try reflexivity; destruct Hmissing; discriminate.
Qed.

(** ** Failures of the transport *)

Lemma bind_lift_raise_here {A B} (r : result A) (k : A -> M B) w e :
  r = Raise e -> bind (lift r) k w = (Raise e, w).
Proof. intros ->; reflexivity. Qed.

Lemma make_request_exhausted method site headers info max_attempts :
  forall w failed last rest,
    responses w = ((failed ++ [last]) ++ rest)%list ->
    Forall not_200 (failed ++ [last]) ->
    Z.to_nat max_attempts = S (length failed) ->
    make_request method site headers info max_attempts w =
    (Raise (RequestError (reason last ++ " " ++ str_of_int (status_code last))),
     {| responses := rest;
        events := events w ++
                  failed_attempts (String.eqb method "POST") (BASE_URL ++ site)
                    headers info (Z.to_nat max_attempts) |}).
Proof.
  intros w failed last rest Hw Hall Hn. unfold make_request.
  replace (Z.to_nat max_attempts) with (length (failed ++ [last]) + 0)%nat
    by (rewrite length_app; cbn [length]; lia).
  rewrite (attempt_loop_failures _ _ _ _ (failed ++ [last]) 0 None w rest
             Hw Hall).
  rewrite fold_left_app, Nat.add_0_r. reflexivity.
Qed.

(** X13. When the server refuses all seven attempts of the reservation
    lookup, [check_flight_price] raises the [RequestError] of the seventh
    answer after exactly those seven calls: the change-flight page and
    the fares are not requested, and nothing is sent. *)
Theorem check_flight_price_stops_at_refused_reservation_lookup :
  forall flight w failed last rest,
    responses w = ((failed ++ [last]) ++ rest)%list ->
    Forall not_200 (failed ++ [last]) ->
    length failed = 6%nat ->
    check_flight_price flight w =
    (Raise (RequestError (reason last ++ " " ++ str_of_int (status_code last))),
     {| responses := rest;
        events := events w ++
                  failed_attempts false
                    (BASE_URL ++ VIEW_RESERVATION_URL ++
                     confirmation_number flight)
                    (headers flight_retriever) traveller_info 7 |}).
Proof.
  intros flight w failed last rest Hw Hall Hlen.
  assert (Hreq := make_request_exhausted "GET"
                    (VIEW_RESERVATION_URL ++ confirmation_number flight)
                    (headers flight_retriever) traveller_info 7
                    w failed last rest Hw Hall).
  rewrite Hlen in Hreq. specialize (Hreq eq_refl).
  unfold check_flight_price, _get_flight_price, _get_matching_flights,
    _get_change_flight_page. cbv zeta.
  unfold traveller_info in Hreq.
  do 4 apply bind_raise. exact Hreq.
Qed.

(** X14. When both airport lookups return and the server refuses all
    seven attempts of the availability search,
    [check_passenger_availability] raises the [RequestError] of the
    seventh answer and sends nothing. *)
Theorem check_passenger_availability_stops_at_refused_search :
  forall flight w origin destination failed last rest,
    get_airport_code (departure_airport flight) = Ok origin ->
    get_airport_code (destination_airport flight) = Ok destination ->
    responses w = ((failed ++ [last]) ++ rest)%list ->
    Forall not_200 (failed ++ [last]) ->
    length failed = 6%nat ->
    check_passenger_availability flight w =
    (Raise (RequestError (reason last ++ " " ++ str_of_int (status_code last))),
     {| responses := rest;
        events := events w ++
                  failed_attempts false (BASE_URL ++ SHOPPING_URL)
                    (headers flight_retriever)
                    (availability_info origin destination
                       (before_space (departure_time flight))) 7 |}).
Proof.
  intros flight w origin destination failed last rest Ho Hd Hw Hall Hlen.
  assert (Hreq := make_request_exhausted "GET" SHOPPING_URL
                    (headers flight_retriever)
                    (availability_info origin destination
                       (before_space (departure_time flight))) 7
                    w failed last rest Hw Hall).
  rewrite Hlen in Hreq. specialize (Hreq eq_refl).
  unfold check_passenger_availability, _search_for_new_booking_on_same_flight.
  cbv zeta. apply bind_raise.
  rewrite (bind_lift_ok _ _ _ _ Ho), (bind_lift_ok _ _ _ _ Hd).
  apply bind_raise. exact Hreq.
Qed.

(** ** Edges of the search query and of the bound-page resolution *)

(** X15. For a change-flight page that lists no bound,
    [_get_search_query] returns the empty query without an error, and
    [_get_matching_flights] then raises [KeyError] on its "outbound"
    entry before any shopping request is made. *)
Theorem matching_flights_raise_on_page_without_bounds :
  forall flight w w1 page fare_type_bounds body links info href,
    _get_change_flight_page flight w = (Ok (page, fare_type_bounds), w1) ->
    page_body page = Ok body ->
    subscript page "boundSelections" = Ok (JList []) ->
    subscript page "_links" = Ok links ->
    subscript links "changeShopping" = Ok info ->
    subscript info "href" = Ok (JStr href) ->
    _get_search_query page flight = Ok (JDict []) /\
    _get_matching_flights flight w = (Raise (KeyError "outbound"), w1).
Proof.
  intros flight w w1 page fare_type_bounds body links info href
    Hpage Hbody Hsel Hlinks Hinfo Hhref.
  assert (Hquery : _get_search_query page flight = Ok (JDict [])).
  { rewrite (get_search_query_unfold flight page body _ Hbody Hsel).
    reflexivity. }
  split; [exact Hquery|].
  unfold _get_matching_flights.
  rewrite (bind_ok _ _ _ _ _ Hpage). cbv beta iota.
  rewrite (bind_lift_ok _ _ _ _ Hquery).
  rewrite (bind_lift_ok _ _ w1 info);
    [|rewrite Hlinks; cbn [rbind]; exact Hinfo].
  rewrite (bind_lift_ok _ _ w1 (BOOKING_URL ++ href));
    [|rewrite Hhref; reflexivity].
  reflexivity.
Qed.

Lemma search_terms_short_of_references flight references :
  forall bounds idx,
    (idx <= length references)%nat ->
    (length references - idx < length bounds)%nat ->
    bounds_ok (JList references) idx
      (firstn (length references - idx) bounds) = true ->
    search_terms_from (JList references) flight idx bounds = Raise IndexError.
Proof.
  induction bounds as [|bound bounds IH]; intros idx Hidx Hlen Hok.
  - cbn [length] in Hlen. lia.
  - cbn [search_terms_from].
    destruct (length references - idx)%nat as [|m] eqn:Em.
    + unfold search_term. cbn [subscript_int].
      assert (Hnone : nth_error references idx = None)
        by (apply nth_error_None; lia).
      rewrite Hnone. reflexivity.
    + cbn [firstn bounds_ok] in Hok.
      apply andb_true_iff in Hok as [Hb Hrest].
      destruct (search_term_ok (JList references) flight idx bound Hb)
        as (term & _ & Hterm & _).
      rewrite Hterm. cbn [rbind].
      rewrite (IH (S idx)); [reflexivity|lia| |].
      * cbn [length] in Hlen. lia.
      * replace (length references - S idx)%nat with m by lia. exact Hrest.
Qed.

(** X16. When the body of the change-shopping link holds fewer bound
    references than the page lists bounds, [_get_search_query] raises
    [IndexError] at the first bound without a reference; this also
    happens for a third or later bound, which the query would not have
    kept. *)
Theorem search_query_raises_when_references_run_out :
  forall flight page references bounds,
    page_body page = Ok (JList references) ->
    subscript page "boundSelections" = Ok (JList bounds) ->
    (length references < length bounds)%nat ->
    bounds_ok (JList references) 0 (firstn (length references) bounds) = true ->
    _get_search_query page flight = Raise IndexError.
Proof.
  intros flight page references bounds Hbody Hsel Hlen Hok.
  rewrite (get_search_query_unfold flight page _ _ Hbody Hsel).
  cbn [py_iter rbind].
  rewrite (search_terms_short_of_references flight references bounds 0);
    [reflexivity|lia|lia|].
  rewrite Nat.sub_0_r. exact Hok.
Qed.

(** X17. The fare product of the resolved leg is read before the
    shopping request is sent: when the reservation has no such leg or the
    leg has no fare product, [_get_matching_flights] raises that lookup's
    error and makes no shopping request. *)
Theorem matching_flights_read_fare_product_before_shopping :
  forall flight w w1 page fare_type_bounds query outbound isChangeBound
         links info href e,
    _get_change_flight_page flight w = (Ok (page, fare_type_bounds), w1) ->
    _get_search_query page flight = Ok query ->
    subscript page "_links" = Ok links ->
    subscript links "changeShopping" = Ok info ->
    subscript info "href" = Ok (JStr href) ->
    subscript query "outbound" = Ok outbound ->
    subscript outbound "isChangeBound" = Ok isChangeBound ->
    fare_type_of_leg fare_type_bounds
      (if py_truthy isChangeBound then 0 else 1)%nat = Raise e ->
    _get_matching_flights flight w = (Raise e, w1).
Proof.
  intros flight w w1 page fare_type_bounds query outbound isChangeBound
    links info href e Hpage Hquery Hlinks Hinfo Hhref Hout Hflag Hfare.
  unfold _get_matching_flights.
  rewrite (bind_ok _ _ _ _ _ Hpage). cbv beta iota.
  rewrite (bind_lift_ok _ _ _ _ Hquery).
  rewrite (bind_lift_ok _ _ w1 info);
    [|rewrite Hlinks; cbn [rbind]; exact Hinfo].
  rewrite (bind_lift_ok _ _ w1 (BOOKING_URL ++ href));
    [|rewrite Hhref; reflexivity].
  rewrite (bind_lift_ok _ _ w1 isChangeBound);
    [|rewrite Hout; cbn [rbind]; exact Hflag].
  cbv zeta. unfold fare_type_of_leg in Hfare.
  destruct (py_truthy isChangeBound); cbn [String.eqb Ascii.eqb Bool.eqb];
    cbv beta iota; apply bind_lift_raise_here; exact Hfare.
Qed.

(** X18. In a produced query the entry of the i-th role ("outbound",
    then "inbound") is built from the i-th bound and the i-th bound
    reference: it holds that reference, the bound's original date, its
    destination and origin codes, and whether the bound departs at the
    booked time, under these five keys in this order. *)
Theorem search_query_entry_pairs_bound_with_reference_by_position :
  forall flight page body bounds i bound role reference
         boundReference date destination origin time,
    page_body page = Ok body ->
    subscript page "boundSelections" = Ok (JList bounds) ->
    bounds_ok body 0 bounds = true ->
    nth_error bounds i = Some bound ->
    nth_error ["outbound"; "inbound"] i = Some role ->
    subscript_int body i = Ok reference ->
    subscript reference "boundReference" = Ok boundReference ->
    subscript bound "originalDate" = Ok date ->
    subscript bound "toAirportCode" = Ok destination ->
    subscript bound "fromAirportCode" = Ok origin ->
    subscript bound "timeDeparts" = Ok time ->
    exists query,
      _get_search_query page flight = Ok query /\
      subscript query role =
      Ok (query_entry boundReference date destination origin
            (py_eq_str time (local_departure_time flight))).
Proof.
  intros flight page body bounds i bound role reference
    boundReference date destination origin time
    Hbody Hsel Hok Hbound Hrole Href Hbr Hdate Hdest Horig Htime.
  destruct (search_terms_ok body flight bounds 0 Hok) as (terms & Hterms & _).
  exists (JDict (combine ["outbound"; "inbound"] terms)). split.
  - rewrite (get_search_query_unfold flight page body _ Hbody Hsel).
    cbn [py_iter rbind]. rewrite Hterms. reflexivity.
  - destruct (search_terms_nth body flight bounds 0 terms i bound Hterms Hbound)
      as (term & Hnth & Hterm).
    rewrite (combine_roles_lookup terms i role term Hrole Hnth).
    cbn [Nat.add] in Hterm. unfold search_term in Hterm.
    rewrite Href in Hterm. cbn [rbind] in Hterm.
    rewrite Hbr, Hdate, Hdest, Horig, Htime in Hterm. cbn [rbind] in Hterm.
    rewrite <- Hterm. reflexivity.
Qed.

(** ** The requests of the price check *)

Lemma starts_bind {A B} e (m : M A) (k : A -> M B) :
  starts_with e m ->
  (forall a, extends_trace (k a)) ->
  starts_with e (bind m k).
Proof.
  intros Hm Hk w. destruct (Hm w) as (rest & Hrest).
  eapply bind_first_event; [exact Hrest|].
  intros a w1. exact (Hk a w1).
Qed.

Lemma starts_make_request method site headers info max_attempts :
  0 < max_attempts ->
  starts_with
    (HttpCall (String.eqb method "POST") (BASE_URL ++ site) headers info)
    (make_request method site headers info max_attempts).
Proof. intros H w. apply make_request_first_event. exact H. Qed.

(** X19. Once the fare product of the resolved leg is found, the
    shopping request is a POST of the search query to
    [BASE_URL + BOOKING_URL + href], with the href of the change-shopping
    link exactly as the change-flight page gives it: the slash fix of the
    change link is not applied to it. *)
Theorem matching_flights_post_query_to_change_shopping_href :
  forall flight w w1 page fare_type_bounds query outbound isChangeBound
         links info href fare_type,
    _get_change_flight_page flight w = (Ok (page, fare_type_bounds), w1) ->
    _get_search_query page flight = Ok query ->
    subscript page "_links" = Ok links ->
    subscript links "changeShopping" = Ok info ->
    subscript info "href" = Ok (JStr href) ->
    subscript query "outbound" = Ok outbound ->
    subscript outbound "isChangeBound" = Ok isChangeBound ->
    fare_type_of_leg fare_type_bounds
      (if py_truthy isChangeBound then 0 else 1)%nat = Ok fare_type ->
    exists rest,
      events (snd (_get_matching_flights flight w)) =
      (events w1 ++
       HttpCall true (BASE_URL ++ BOOKING_URL ++ href)
         (headers flight_retriever) query :: rest)%list.
Proof.
  intros flight w w1 page fare_type_bounds query outbound isChangeBound
    links info href fare_type
    Hpage Hquery Hlinks Hinfo Hhref Hout Hflag Hfare.
  unfold _get_matching_flights.
  rewrite (bind_ok _ _ _ _ _ Hpage). cbv beta iota.
  rewrite (bind_lift_ok _ _ _ _ Hquery).
  rewrite (bind_lift_ok _ _ w1 info);
    [|rewrite Hlinks; cbn [rbind]; exact Hinfo].
  rewrite (bind_lift_ok _ _ w1 (BOOKING_URL ++ href));
    [|rewrite Hhref; reflexivity].
  rewrite (bind_lift_ok _ _ w1 isChangeBound);
    [|rewrite Hout; cbn [rbind]; exact Hflag].
  cbv zeta. unfold fare_type_of_leg in Hfare.
  assert (Hpost : starts_with
            (HttpCall true (BASE_URL ++ BOOKING_URL ++ href)
               (headers flight_retriever) query)
            (make_request "POST" (BOOKING_URL ++ href)
               (headers flight_retriever) query 7))
    by (apply (starts_make_request "POST"); reflexivity).
  destruct (py_truthy isChangeBound); cbn [String.eqb Ascii.eqb Bool.eqb];
    cbv beta iota; rewrite (bind_lift_ok _ _ w1 fare_type Hfare);
    (apply starts_bind; [exact Hpost|]);
    intros response w2; eapply tw_extends; tw_steps.
Qed.

Lemma starts_get_change_flight_page flight :
  starts_with
    (HttpCall false
       (BASE_URL ++ VIEW_RESERVATION_URL ++ confirmation_number flight)
       (headers flight_retriever) traveller_info)
    (_get_change_flight_page flight).
Proof.
  unfold _get_change_flight_page. cbv zeta.
  apply starts_bind.
  - apply (starts_make_request "GET"). reflexivity.
  - intros response w. eapply tw_extends. tw_steps.
Qed.

(** X20. Whatever the server answers, the first thing
    [check_flight_price] does is a GET of
    [BASE_URL + VIEW_RESERVATION_URL + confirmation number] with the
    traveller's first and last name as parameters. *)
Theorem check_flight_price_begins_with_reservation_lookup :
  forall flight w,
    exists rest,
      events (snd (check_flight_price flight w)) =
      (events w ++
       HttpCall false
         (BASE_URL ++ VIEW_RESERVATION_URL ++ confirmation_number flight)
         (headers flight_retriever)
         (JDict [("first-name", JStr (first_name flight_retriever));
                 ("last-name", JStr (last_name flight_retriever))]) ::
       rest)%list.
Proof.
  intros flight.
  change (starts_with
            (HttpCall false
               (BASE_URL ++ VIEW_RESERVATION_URL ++ confirmation_number flight)
               (headers flight_retriever) traveller_info)
            (check_flight_price flight)).
  unfold check_flight_price, _get_flight_price, _get_matching_flights.
  apply starts_bind; [apply starts_bind; [apply starts_bind|]|].
  - apply starts_get_change_flight_page.
  - intros [page fare_type_bounds] w. eapply tw_extends. cbv zeta. tw_steps.
  - intros [flights fare_type]. intros w. apply lift_adds_nothing.
  - intros price w. unfold bind, lift.
    destruct (py_get price "sign" (JStr "")) as [sign|];
      [|exists []; cbn; rewrite app_nil_r; reflexivity].
    destruct (subscript price "amount") as [amount|];
      [|exists []; cbn; rewrite app_nil_r; reflexivity].
    destruct (subscript price "currencyCode") as [currencyCode|];
      [|exists []; cbn; rewrite app_nil_r; reflexivity].
    destruct (py_eq_str sign "-").
    + eexists. reflexivity.
    + exists []. cbn. rewrite app_nil_r. reflexivity.
Qed.

End Checkers.


(** ** The statements on concrete reservations *)

(** Scenario 3 of the specification: a lower fare on the booked flight is
    reported as "-10 USD". *)
Lemma check_flight_price_notifies_only_lower_fare_witness :
  let flight := example_flight "12:00" in
  let w := price_world (JList [fare_card "12:00" "WGA" "-"]) (JList []) in
  exists w1,
    _get_flight_price example_view_reservation_url example_repr
      example_retriever flight w = (Ok (fare_delta "-"), w1) /\
    check_flight_price example_view_reservation_url example_repr
      example_retriever flight w =
    (Ok tt, add_events w1 [LowerFare flight "-10 USD"]).
Proof.
  intros flight w. eexists. split.
  - vm_compute. reflexivity.
  - eapply (check_flight_price_notifies_only_lower_fare
              example_view_reservation_url example_repr example_retriever
              flight w _
              [("sign", JStr "-"); ("amount", JStr "10");
               ("currencyCode", JStr "USD")]
              (Some "-") (JStr "10") (JStr "USD")).
    + vm_compute. reflexivity.
    + reflexivity.
    + reflexivity.
    + reflexivity.
Defined.

(** C4. Scenario 2 of the specification run through the whole price
    check: the cards depart at 10:30 and 11:30, the booked flight at
    12:00. [_get_flight_price] returns [None]; [check_flight_price] then
    raises [AttributeError] on [flight_price.get] instead of completing
    without an error. No notification is sent. *)
Theorem check_flight_price_raises_without_matching_card :
  let flight := example_flight "12:00" in
  let w := price_world unmatched_cards (JList []) in
  exists w1,
    _get_flight_price example_view_reservation_url example_repr
      example_retriever flight w = (Ok JNull, w1) /\
    check_flight_price example_view_reservation_url example_repr
      example_retriever flight w = (Raise AttributeError, w1) /\
    forall price_info, ~ In (LowerFare flight price_info) (events w1).
Proof.
  intros flight w.
  destruct (check_flight_price_without_matching_card
              example_view_reservation_url example_repr example_retriever
              flight w
              (snd (_get_matching_flights example_view_reservation_url
                      example_retriever flight w))
              unmatched_cards (JStr "WGA")
              [JDict [("departureTime", JStr "10:30")];
               JDict [("departureTime", JStr "11:30")]])
    as [Hprice Hcheck].
  - vm_compute. reflexivity.
  - reflexivity.
  - vm_compute. reflexivity.
  - eexists. split; [exact Hprice|]. split; [exact Hcheck|].
    intros price_info Hin. vm_compute in Hin.
    repeat (destruct Hin as [Hin | Hin]; [discriminate Hin|]).
    exact Hin.
Qed.

(** Scenario 4 of the specification: a null price on the matched card
    makes the availability check notify once. *)
Lemma check_passenger_availability_notifies_on_null_price_witness :
  let flight := example_flight "12:00" in
  let card := [("departureTime", JStr "12:00"); ("startingFromPrice", JNull)] in
  let w := availability_world (JList [JDict card]) in
  exists w1,
    check_passenger_availability example_airports example_retriever flight w =
    (Ok tt, add_events w1 [FlightUnavailable flight]).
Proof.
  intros flight card w. eexists.
  eapply (check_passenger_availability_notifies_on_null_price
           example_airports example_retriever flight w _
           (JList [JDict card]) card).
  - vm_compute. reflexivity.
  - reflexivity.
Defined.

(** C5 as stated fails on a matched card without the key
    [startingFromPrice]: the field is absent and no notification is
    sent, the subscript raising [KeyError] instead. *)
Lemma check_passenger_availability_absent_price_counterexample :
  let flight := example_flight "12:00" in
  let card := [("departureTime", JStr "12:00")] in
  let w := availability_world (JList [JDict card]) in
  let outcome :=
    check_passenger_availability example_airports example_retriever flight w in
  _find_matching_flight flight (JList [JDict card]) = Ok (JDict card) /\
  fst outcome = Raise (KeyError "startingFromPrice") /\
  ~ (In (FlightUnavailable flight) (events (snd outcome)) <->
     (lookup "startingFromPrice" card = None \/
      lookup "startingFromPrice" card = Some JNull)).
Proof.
  intros flight card w outcome.
  split; [reflexivity|]. split; [reflexivity|].
  intros [_ H]. specialize (H (or_introl eq_refl)).
  vm_compute in H.
  repeat (destruct H as [H | H]; [discriminate H|]).
  exact H.
Qed.

(** A fare list with the expected fare product yields its price
    difference. *)
Lemma get_matching_fare_returns_fare_or_raises_key_error_witness :
  _get_matching_fare example_repr
    (JList [JDict [("_meta", JDict [("fareProductId", JStr "A")]);
                   ("priceDifference", fare_delta "-")]])
    (JStr "A") = Ok (fare_delta "-").
Proof.
  destruct (get_matching_fare_returns_fare_or_raises_key_error example_repr
              (JList [JDict [("_meta", JDict [("fareProductId", JStr "A")]);
                             ("priceDifference", fare_delta "-")]])
              [JDict [("_meta", JDict [("fareProductId", JStr "A")]);
                      ("priceDifference", fare_delta "-")]]
              (JStr "A") eq_refl eq_refl)
    as (price & Hprice & Hfare).
  rewrite Hfare. symmetry. exact Hprice.
Defined.

(** Scenario 2 of the specification in the availability flow: no card at
    the booked time makes the check raise. *)
Lemma check_passenger_availability_raises_without_matching_card_witness :
  let flight := example_flight "12:00" in
  let w := availability_world unmatched_cards in
  exists w1,
    check_passenger_availability example_airports example_retriever flight w =
    (Raise TypeError, w1).
Proof.
  intros flight w. eexists.
  eapply (check_passenger_availability_raises_without_matching_card
           example_repr example_airports example_retriever flight w _
           unmatched_cards
           [JDict [("departureTime", JStr "10:30")];
            JDict [("departureTime", JStr "11:30")]]
           JNull).
  - vm_compute. reflexivity.
  - reflexivity.
  - reflexivity.
Defined.

(** Scenario 1 of the specification: on the round trip the flight that
    departs at 1:00 is the inbound bound. *)
Lemma search_query_roles_and_change_bound_witness :
  let flight := example_flight "1:00" in
  exists query inbound,
    _get_search_query (example_page [bound_one; bound_two]) flight = Ok query /\
    dict_keys query = ["outbound"; "inbound"] /\
    subscript query "inbound" = Ok inbound /\
    subscript inbound "isChangeBound" = Ok (JBool true).
Proof.
  intros flight.
  destruct (search_query_roles_and_change_bound flight
              (example_page [bound_one; bound_two]) example_body
              [bound_one; bound_two] eq_refl eq_refl eq_refl
              (or_intror eq_refl))
    as (query & Hquery & Hkeys & Hentries & _).
  destruct (Hentries 1%nat bound_two "inbound" eq_refl eq_refl)
    as (entry & time & Hentry & Htime & Hflag).
  exists query, entry.
  split; [exact Hquery|]. split; [exact Hkeys|]. split; [exact Hentry|].
  injection Htime as <-. exact Hflag.
Defined.

(** A page with three bounds yields a query for the first two. *)
Lemma search_query_keeps_first_two_bounds_witness :
  let flight := example_flight "1:00" in
  exists query,
    _get_search_query (example_page [bound_one; bound_two; bound_three])
      flight = Ok query /\
    dict_keys query = ["outbound"; "inbound"] /\
    _get_search_query (example_page [bound_one; bound_two]) flight = Ok query.
Proof.
  intros flight.
  destruct (search_query_keeps_first_two_bounds flight
              (example_page [bound_one; bound_two; bound_three]) example_body
              (JList [bound_one; bound_two; bound_three])
              [bound_one; bound_two; bound_three]
              eq_refl eq_refl eq_refl eq_refl)
    as (query & terms & Hquery & Hterms & Heq & Hkeys & _).
  exists query.
  split; [exact Hquery|]. split; [exact Hkeys|].
  rewrite Heq.
  injection Hterms as <-. reflexivity.
Defined.

(** On the round trip checked for its inbound flight, the cards of the
    inbound page and the fare product of leg 1 are returned. *)
Lemma matching_flights_follow_change_bound_witness :
  let flight := example_flight "1:00" in
  let inbound_cards := JList [fare_card "1:00" "ANY" "-"] in
  let w := price_world (JList []) inbound_cards in
  exists w2,
    _get_matching_flights example_view_reservation_url example_retriever
      flight w = (Ok (inbound_cards, JStr "ANY"), w2).
Proof.
  intros flight inbound_cards w. eexists.
  eapply (matching_flights_follow_change_bound
            example_view_reservation_url example_retriever flight w
            (snd (_get_change_flight_page example_view_reservation_url
                    example_retriever flight w))
            _
            (example_page [bound_one; bound_two])
            _ _ _ (JBool false) _ _
            "v1/mobile-air-booking/page/flights/change/shopping").
  - vm_compute. reflexivity.
  - vm_compute. reflexivity.
  - reflexivity.
  - reflexivity.
  - reflexivity.
  - reflexivity.
  - reflexivity.
  - reflexivity.
  - vm_compute. reflexivity.
  - reflexivity.
Defined.

(** The change link of the example reservation begins with a slash
    before "v1/": the change-flight page is requested without it. *)
Lemma change_flight_page_strips_one_character_on_pattern_witness :
  let flight := example_flight "12:00" in
  let w := price_world (JList []) (JList []) in
  exists outcome,
    _get_change_flight_page example_view_reservation_url example_retriever
      flight w = outcome /\
    nth_error (events (snd outcome)) 1 =
    Some (HttpCall false
            (BASE_URL ++ BOOKING_URL ++
             "v1/mobile-air-booking/page/flights/change/current/ABC123")
            (headers example_retriever) example_change_query).
Proof.
  intros flight w.
  destruct (change_flight_page_strips_one_character_on_pattern
              example_view_reservation_url example_retriever flight w
              {| responses := tl (responses w);
                 events := [HttpCall false
                              (BASE_URL ++ example_view_reservation_url ++
                               "ABC123")
                              (headers example_retriever)
                              (traveller_info example_retriever)] |}
              (reservation_response slashed_href)
              (JList [JDict [("fareProductDetails",
                              JDict [("fareProductId", JStr "WGA")])];
                      JDict [("fareProductDetails",
                              JDict [("fareProductId", JStr "ANY")])]])
              [("href", JStr slashed_href); ("query", example_change_query)]
              slashed_href example_change_query
              eq_refl eq_refl eq_refl eq_refl eq_refl)
    as (used & Hused & Hpage).
  cbn in Hused. destruct Hused as [c Hc]. injection Hc as _ <-.
  eexists. split; [exact Hpage|]. reflexivity.
Defined.

(** Two attempts allowed, both refused: the error names the second
    answer. *)
Lemma make_request_retries_then_reports_last_response_witness :
  let w := {| responses := [busy_response; missing_response; ok_response JNull];
              events := [] |} in
  make_request "GET" "x" JNull JNull 2 w =
  (Raise (RequestError "Not Found 404"),
   {| responses := [ok_response JNull];
      events := [HttpCall false (BASE_URL ++ "x") JNull JNull; Sleep 500;
                 HttpCall false (BASE_URL ++ "x") JNull JNull; Sleep 500] |}).
Proof.
  intros w.
  apply (make_request_retries_then_reports_last_response
           "GET" "x" JNull JNull 2 w [busy_response] missing_response
           [ok_response JNull]).
  - reflexivity.
  - constructor; [|constructor]. intros H; discriminate H.
  - reflexivity.
  - right. reflexivity.
Defined.

(** ** The further statements on concrete reservations *)

Lemma make_request_zero_attempts_raises_unbound_local_witness :
  make_request "GET" "x" JNull JNull 0 refusing_world =
  (Raise UnboundLocalError, refusing_world).
Proof.
  apply (make_request_zero_attempts_raises_unbound_local
           "GET" "x" JNull JNull 0 refusing_world).
  discriminate.
Defined.

Lemma make_request_returns_only_bodies_of_status_200_witness :
  exists r,
    In r [busy_response; ok_response (JStr "done")] /\
    status_code r = 200 /\ json r = JStr "done".
Proof.
  eapply (make_request_returns_only_bodies_of_status_200
            "GET" "x" JNull JNull 3
            {| responses := [busy_response; ok_response (JStr "done")];
               events := [] |}
            (JStr "done")).
  vm_compute. reflexivity.
Defined.

Lemma get_airport_code_returns_id_of_first_station_named_witness :
  get_airport_code example_airports "Miami" = Ok (JStr "MIA") /\
  get_airport_code example_airports "Atlantis" = Ok JNull.
Proof.
  split.
  - apply (get_airport_code_returns_id_of_first_station_named
             example_airports "Miami" _ _ eq_refl eq_refl eq_refl).
  - apply (get_airport_code_returns_id_of_first_station_named
             example_airports "Atlantis" _ _ eq_refl eq_refl eq_refl).
Defined.

Lemma availability_search_asks_for_eight_adults_on_departure_date_witness :
  exists rest,
    events (snd (_search_for_new_booking_on_same_flight example_airports
                   example_retriever (example_flight "12:00")
                   (availability_world unmatched_cards))) =
    HttpCall false (BASE_URL ++ SHOPPING_URL) (headers example_retriever)
      (availability_info (JStr "MIA") (JStr "LAX") "2021-12-06") :: rest.
Proof.
  apply (availability_search_asks_for_eight_adults_on_departure_date
           example_airports example_retriever (example_flight "12:00")
           (availability_world unmatched_cards)
           (JStr "MIA") (JStr "LAX") "2021-12-06" "12:00:00");
    reflexivity.
Defined.

Lemma find_matching_flight_returns_first_card_at_booked_time_witness :
  _find_matching_flight (example_flight "12:00")
    (JList [priced_card "10:30" JNull;
            priced_card "12:00" (JStr "first");
            priced_card "12:00" (JStr "second")]) =
  Ok (priced_card "12:00" (JStr "first")).
Proof.
  apply (find_matching_flight_returns_first_card_at_booked_time
           (example_flight "12:00") _
           [priced_card "10:30" JNull;
            priced_card "12:00" (JStr "first");
            priced_card "12:00" (JStr "second")]);
    reflexivity.
Defined.

Lemma find_matching_flight_raises_on_card_without_time_witness :
  _find_matching_flight (example_flight "12:00")
    (JList [priced_card "10:30" JNull;
            JDict [("startingFromPrice", JNull)];
            priced_card "12:00" JNull]) =
  Raise (KeyError "departureTime").
Proof.
  apply (find_matching_flight_raises_on_card_without_time
           (example_flight "12:00") _
           [priced_card "10:30" JNull] [("startingFromPrice", JNull)]
           [priced_card "12:00" JNull]);
    reflexivity.
Defined.

Lemma flight_price_is_matched_fare_of_first_card_at_booked_time_witness :
  let flight := example_flight "12:00" in
  let cards := [fare_card "10:30" "WGA" "+"; fare_card "12:00" "WGA" "-"] in
  exists w1,
    _get_flight_price example_view_reservation_url example_repr
      example_retriever flight (price_world (JList cards) (JList [])) =
    (Ok (fare_delta "-"), w1).
Proof.
  intros flight cards. eexists.
  eapply (flight_price_is_matched_fare_of_first_card_at_booked_time
            example_view_reservation_url example_repr example_retriever
            flight (price_world (JList cards) (JList [])) _
            (JList cards) (JStr "WGA")
            [fare_card "10:30" "WGA" "+"] (fare_card "12:00" "WGA" "-") []
            (JList [JDict [("_meta", JDict [("fareProductId", JStr "WGA")]);
                           ("priceDifference", fare_delta "-")]])).
  - vm_compute. reflexivity.
  - reflexivity.
  - reflexivity.
  - reflexivity.
  - reflexivity.
Defined.

Lemma check_flight_price_raises_on_missing_fare_product_witness :
  let flight := example_flight "12:00" in
  let cards := [fare_card "12:00" "BUS" "-"] in
  exists w1,
    check_flight_price example_view_reservation_url example_repr
      example_retriever flight (price_world (JList cards) (JList [])) =
    (Raise (KeyError "No fare type found matching WGA"), w1).
Proof.
  intros flight cards. eexists.
  eapply (check_flight_price_raises_on_missing_fare_product
            example_view_reservation_url example_repr example_retriever
            flight (price_world (JList cards) (JList [])) _
            (JList cards) (JStr "WGA")
            [] (fare_card "12:00" "BUS" "-") []
            (JList [JDict [("_meta", JDict [("fareProductId", JStr "BUS")]);
                           ("priceDifference", fare_delta "-")]])
            [JDict [("_meta", JDict [("fareProductId", JStr "BUS")]);
                    ("priceDifference", fare_delta "-")]]).
  - vm_compute. reflexivity.
  - reflexivity.
  - reflexivity.
  - reflexivity.
  - reflexivity.
  - reflexivity.
  - reflexivity.
  - reflexivity.
Defined.

Lemma check_flight_price_raises_on_incomplete_fare_delta_witness :
  let flight := example_flight "12:00" in
  exists w1,
    check_flight_price example_view_reservation_url example_repr
      example_retriever flight
      (price_world (JList [incomplete_card]) (JList [])) =
    (Raise (KeyError "amount"), w1).
Proof.
  intros flight. eexists.
  eapply (check_flight_price_raises_on_incomplete_fare_delta
            example_view_reservation_url example_repr example_retriever
            flight (price_world (JList [incomplete_card]) (JList [])) _
            incomplete_delta).
  - vm_compute. reflexivity.
  - left. reflexivity.
Defined.

Lemma check_flight_price_stops_at_refused_reservation_lookup_witness :
  exists w1,
    check_flight_price example_view_reservation_url example_repr
      example_retriever (example_flight "12:00") refusing_world =
    (Raise (RequestError "Service Unavailable 503"), w1) /\
    responses w1 = [] /\ length (events w1) = 14%nat.
Proof.
  eexists. split.
  - apply (check_flight_price_stops_at_refused_reservation_lookup
             example_view_reservation_url example_repr example_retriever
             (example_flight "12:00") refusing_world
             (repeat busy_response 6) busy_response []).
    + reflexivity.
    + repeat constructor; intros H; discriminate H.
    + reflexivity.
  - split; reflexivity.
Defined.

Lemma check_passenger_availability_stops_at_refused_search_witness :
  exists w1,
    check_passenger_availability example_airports example_retriever
      (example_flight "12:00") refusing_world =
    (Raise (RequestError "Service Unavailable 503"), w1) /\
    responses w1 = [] /\ length (events w1) = 14%nat.
Proof.
  eexists. split.
  - apply (check_passenger_availability_stops_at_refused_search
             example_airports example_retriever
             (example_flight "12:00") refusing_world
             (JStr "MIA") (JStr "LAX")
             (repeat busy_response 6) busy_response []).
    + reflexivity.
    + reflexivity.
    + reflexivity.
    + repeat constructor; intros H; discriminate H.
    + reflexivity.
  - split; reflexivity.
Defined.

Lemma matching_flights_raise_on_page_without_bounds_witness :
  exists w1,
    _get_matching_flights example_view_reservation_url example_retriever
      (example_flight "12:00") boundless_world =
    (Raise (KeyError "outbound"), w1) /\
    http_calls (events w1) = 2%nat.
Proof.
  eexists. split.
  - eapply (matching_flights_raise_on_page_without_bounds
              example_view_reservation_url example_retriever
              (example_flight "12:00") boundless_world _
              (example_page []) _ example_body _ _
              "v1/mobile-air-booking/page/flights/change/shopping").
    + vm_compute. reflexivity.
    + reflexivity.
    + reflexivity.
    + reflexivity.
    + reflexivity.
    + reflexivity.
  - reflexivity.
Defined.

Lemma search_query_raises_when_references_run_out_witness :
  _get_search_query short_body_page (example_flight "12:00") =
  Raise IndexError.
Proof.
  apply (search_query_raises_when_references_run_out
           (example_flight "12:00") short_body_page short_references
           [bound_one; bound_two; bound_three]).
  - reflexivity.
  - reflexivity.
  - cbn. apply le_n.
  - reflexivity.
Defined.

(** A one-way reservation checked for a flight that departs at another
    time than its bound: leg 1 is looked up and does not exist. *)
Lemma matching_flights_read_fare_product_before_shopping_witness :
  exists w1,
    _get_matching_flights example_view_reservation_url example_retriever
      (example_flight "1:00") (one_way_world (JList [])) =
    (Raise IndexError, w1) /\
    http_calls (events w1) = 2%nat.
Proof.
  eexists. split.
  - eapply (matching_flights_read_fare_product_before_shopping
              example_view_reservation_url example_retriever
              (example_flight "1:00") (one_way_world (JList [])) _
              (example_page [bound_one]) _ _ _ (JBool false) _ _
              "v1/mobile-air-booking/page/flights/change/shopping").
    + vm_compute. reflexivity.
    + vm_compute. reflexivity.
    + reflexivity.
    + reflexivity.
    + reflexivity.
    + reflexivity.
    + reflexivity.
    + reflexivity.
  - reflexivity.
Defined.

(** The entry the test suite expects for the inbound bound of the round
    trip. *)
Lemma search_query_entry_pairs_bound_with_reference_by_position_witness :
  exists query,
    _get_search_query (example_page [bound_one; bound_two])
      (example_flight "1:00") = Ok query /\
    subscript query "inbound" =
    Ok (query_entry (JStr "bound_2") (JStr "1/2") (JStr "MIA") (JStr "LAX")
          true).
Proof.
  apply (search_query_entry_pairs_bound_with_reference_by_position
           (example_flight "1:00") (example_page [bound_one; bound_two])
           example_body [bound_one; bound_two] 1 bound_two "inbound"
           (JDict [("boundReference", JStr "bound_2")])
           (JStr "bound_2") (JStr "1/2") (JStr "MIA") (JStr "LAX")
           (JStr "1:00"));
    reflexivity.
Defined.

Lemma matching_flights_post_query_to_change_shopping_href_witness :
  let flight := example_flight "12:00" in
  let w := price_world (JList []) (JList []) in
  exists query rest,
    _get_search_query (example_page [bound_one; bound_two]) flight =
      Ok query /\
    skipn 2 (events (snd (_get_matching_flights example_view_reservation_url
                            example_retriever flight w))) =
    HttpCall true
      (BASE_URL ++ BOOKING_URL ++
       "v1/mobile-air-booking/page/flights/change/shopping")
      (headers example_retriever) query :: rest.
Proof.
  intros flight w.
  destruct (matching_flights_post_query_to_change_shopping_href
              example_view_reservation_url example_retriever flight w
              (snd (_get_change_flight_page example_view_reservation_url
                      example_retriever flight w))
              (example_page [bound_one; bound_two])
              (JList [JDict [("fareProductDetails",
                              JDict [("fareProductId", JStr "WGA")])];
                      JDict [("fareProductDetails",
                              JDict [("fareProductId", JStr "ANY")])]])
              (query_of_round_trip flight)
              (query_entry (JStr "bound_1") (JStr "1/1") (JStr "LAX")
                 (JStr "MIA") true)
              (JBool true)
              (JDict [("changeShopping",
                       JDict [("href", JStr "v1/mobile-air-booking/page/flights/change/shopping");
                              ("body", example_body)])])
              (JDict [("href", JStr "v1/mobile-air-booking/page/flights/change/shopping");
                      ("body", example_body)])
              "v1/mobile-air-booking/page/flights/change/shopping"
              (JStr "WGA"))
    as (rest & Hrest); try reflexivity.
  exists (query_of_round_trip flight), rest.
  split; [reflexivity|]. rewrite Hrest. reflexivity.
Defined.
